(** * JobDetail: the job detail view of MetaDeploy

    A shallow embedding of [src/js/components/jobs/detail.js], the connected
    React component [JobDetail], and the properties of its fetch policy, its
    render state machine and its cancel control.

    The component is a class with two local state fields, seven data props
    and four action creators received as props.  Its methods are embedded as
    computations in a small state monad over the component instance; the
    action creators are recorded in an effect log instead of being run. *)

From Stdlib Require Import String List Bool Arith Lia.
Import ListNotations.
Local Open Scope string_scope.
Local Open Scope list_scope.
Local Open Scope bool_scope.

Set Implicit Arguments.

(** ** JavaScript values *)

Module JS.

(** Flow's [?T]: [undefined], [null] or a [T].  A type [T | null] is an
    [option T], with [None] for [null]. *)
Inductive Maybe (A : Type) : Type :=
| undefined : Maybe A
| null : Maybe A
| value : A -> Maybe A.
Arguments undefined {A}.
Arguments null {A}.
Arguments value {A} _.

(** An object is known by its address: [===] on objects compares the
    addresses and never looks at the fields. *)
Record Obj (A : Type) : Type := obj { addr : nat; fields : A }.

(** ToBoolean, as used by [&&], [||], [!] and [if]. *)
Class Truthy (A : Type) : Type := truthy : A -> bool.

(** Strict equality, [===]. *)
Class StrictEq (A : Type) : Type := strict_eq : A -> A -> bool.

#[global] Instance truthy_bool : Truthy bool := fun b => b.
#[global] Instance truthy_string : Truthy string :=
  fun s => match s with EmptyString => false | String _ _ => true end.
#[global] Instance truthy_nat : Truthy nat :=
  fun n => match n with O => false | S _ => true end.
#[global] Instance truthy_obj {A} : Truthy (Obj A) := fun _ => true.
#[global] Instance truthy_array {A} : Truthy (list A) := fun _ => true.
#[global] Instance truthy_option {A} `{Truthy A} : Truthy (option A) :=
  fun o => match o with None => false | Some a => truthy a end.
#[global] Instance truthy_maybe {A} `{Truthy A} : Truthy (Maybe A) :=
  fun m => match m with value a => truthy a | _ => false end.

#[global] Instance strict_eq_string : StrictEq string := String.eqb.
#[global] Instance strict_eq_obj {A} : StrictEq (Obj A) :=
  fun a b => Nat.eqb (addr a) (addr b).
#[global] Instance strict_eq_option {A} `{StrictEq A} : StrictEq (option A) :=
  fun a b =>
    match a, b with
    | None, None => true
    | Some x, Some y => strict_eq x y
    | _, _ => false
    end.
#[global] Instance strict_eq_maybe {A} `{StrictEq A} : StrictEq (Maybe A) :=
  fun a b =>
    match a, b with
    | undefined, undefined => true
    | null, null => true
    | value x, value y => strict_eq x y
    | _, _ => false
    end.

(** [a !== b] *)
Definition strict_neq {A} `{StrictEq A} (a b : A) : bool :=
  negb (strict_eq a b).

(** A value is present when a JavaScript condition takes it for true. *)
Definition present {A} `{Truthy A} (a : A) : Prop := truthy a = true.

(** Two values differ when [!==] says so. *)
Definition differs {A} `{StrictEq A} (a b : A) : Prop := strict_neq a b = true.

End JS.

Import JS.

Notation "a === b" := (strict_eq a b) (at level 70, no associativity).
Notation "a !== b" := (strict_neq a b) (at level 70, no associativity).

Module Detail.

Section JobDetail.

(** ** External collaborators

    [detail.js] imports these from modules that are not part of the file;
    everything below holds for any choice of them. *)

(** [User] of [user/reducer], [Step] of [plans/reducer], and the nodes that
    [getLoadingOrNotFound] yields (a spinner, a not-found page, a login
    prompt): all opaque to the view. *)
Variables User Step Placeholder : Type.

(** [CONSTANTS.STATUS.STARTED] of [plans/reducer]. *)
Variable STATUS_STARTED : string.

(** ** The entities read by the view

    Only the fields that [detail.js] reads are kept. *)

Record Product : Type :=
  { product_id : string; product_slug : string; product_title : string }.

Record Version : Type := { version_label : string }.

Record Plan : Type :=
  { plan_slug : string; plan_title : string; plan_steps : option (list Step) }.

Record Job : Type :=
  { job_id : string; job_status : string; job_user_can_edit : bool }.

(** ** Props and state (the Flow types [Props] and [State]) *)

Record Props : Type :=
  { user : option User;
    product : option (Obj Product);
    version : option (Obj Version);
    versionLabel : Maybe string;
    plan : option (Obj Plan);
    job : Maybe (Obj Job);
    jobId : Maybe string }.

Record State : Type := { modalOpen : bool; canceling : bool }.

(** The argument of [this.setState]: an object holding some of the fields
    of [State], merged into the current state. *)
Record StatePatch : Type :=
  { set_modalOpen : option bool; set_canceling : option bool }.

Definition merge (s : State) (p : StatePatch) : State :=
  {| modalOpen := match set_modalOpen p with Some b => b | None => modalOpen s end;
     canceling := match set_canceling p with Some b => b | None => canceling s end |}.

(** The object literals passed to the two helpers of [products/utils]. *)
Record VersionArgs : Type :=
  { va_product : option (Obj Product);
    va_version : option (Obj Version);
    va_versionLabel : Maybe string }.

Record LoadingArgs : Type :=
  { la_product : option (Obj Product);
    la_version : option (Obj Version);
    la_versionLabel : Maybe string;
    la_plan : option (Obj Plan);
    la_job : Maybe (Obj Job);
    la_jobId : Maybe string;
    la_isLoggedIn : bool }.

(** [shouldFetchVersion] and [getLoadingOrNotFound] of [products/utils];
    the latter returns a node or [false], here [None]. *)
Variable shouldFetchVersion : VersionArgs -> bool.
Variable getLoadingOrNotFound : LoadingArgs -> option Placeholder.

(** [routes.plan_detail] of [utils/routes]. *)
Variable plan_detail : string -> string -> string -> string.

(** ** The component instance *)

(** The action creators the component receives as props.  Calling one is
    recorded in the effect log; each call returns a promise, named by the
    position of the call in the log. *)
Inductive Action : Type :=
| doFetchVersion (product_ label : string)
| doFetchJob (jobId_ : string)
| doRequestCancelJob (id : string).

Definition Promise : Type := nat.

(** The one function ever passed to [.then]:
    [() => { this.setState({ canceling: true }); }]. *)
Inductive Continuation : Type := then_setCanceling.

(** The methods with side effects; their entries are logged so that one can
    tell which of them ran. *)
Inductive Method : Type :=
| m_fetchVersionIfMissing
| m_fetchJobIfMissing
| m_componentDidMount
| m_componentDidUpdate
| m_toggleModal
| m_openModal
| m_requestCancelJob.

Record Component : Type :=
  { props : Props;
    state : State;
    effects : list Action;
    thens : list (Promise * Continuation);
    calls : list Method;
    updateScheduled : bool }.

(** ** The monad of methods: state passing over the instance ([this]) *)

Definition M (A : Type) : Type := Component -> A * Component.

Definition ret {A} (a : A) : M A := fun c => (a, c).

Definition bind {A B} (m : M A) (f : A -> M B) : M B :=
  fun c => let (a, c') := m c in f a c'.

Notation "x <- m ;; k" := (bind m (fun x => k))
  (at level 61, m at next level, right associativity).
Notation "m ;; k" := (bind m (fun _ => k))
  (at level 61, right associativity).

Definition exec {A} (m : M A) (c : Component) : Component := snd (m c).

Definition this_props : M Props := fun c => (props c, c).

Definition this_state : M State := fun c => (state c, c).

Definition enter (m : Method) : M unit :=
  fun c => (tt, {| props := props c; state := state c; effects := effects c;
                   thens := thens c; calls := calls c ++ [m];
                   updateScheduled := updateScheduled c |}).

(** [this.setState(patch)]: merges the patch and schedules a re-render. *)
Definition setState (patch : StatePatch) : M unit :=
  fun c => (tt, {| props := props c; state := merge (state c) patch;
                   effects := effects c; thens := thens c; calls := calls c;
                   updateScheduled := true |}).

Definition dispatch (a : Action) : M Promise :=
  fun c => (length (effects c),
            {| props := props c; state := state c; effects := effects c ++ [a];
               thens := thens c; calls := calls c;
               updateScheduled := updateScheduled c |}).

(** [promise.then(k)] with no rejection handler. *)
Definition then_ (p : Promise) (k : Continuation) : M unit :=
  fun c => (tt, {| props := props c; state := state c; effects := effects c;
                   thens := thens c ++ [(p, k)]; calls := calls c;
                   updateScheduled := updateScheduled c |}).

(** ** The methods of [JobDetail] *)

Definition constructor (p : Props) : Component :=
  {| props := p;
     state := {| modalOpen := false; canceling := false |};
     effects := []; thens := []; calls := []; updateScheduled := false |}.

Definition fetchVersionIfMissing : M unit :=
  enter m_fetchVersionIfMissing ;;
  p <- this_props ;;
  if truthy (product p) && truthy (versionLabel p)
     && shouldFetchVersion {| va_product := product p;
                              va_version := version p;
                              va_versionLabel := versionLabel p |}
  then
    match product p, versionLabel p with
    | Some prod, value lbl =>
        dispatch (doFetchVersion (product_id (fields prod)) lbl) ;; ret tt
    | _, _ => ret tt
    end
  else ret tt.

Definition fetchJobIfMissing : M unit :=
  enter m_fetchJobIfMissing ;;
  p <- this_props ;;
  if (job p === undefined) && truthy (jobId p)
  then
    match jobId p with
    | value id => dispatch (doFetchJob id) ;; ret tt
    | _ => ret tt
    end
  else ret tt.

Definition componentDidMount : M unit :=
  enter m_componentDidMount ;;
  fetchVersionIfMissing ;;
  fetchJobIfMissing.

Definition versionChanged (p prevProps : Props) : bool :=
  (product p !== product prevProps)
  || (version p !== version prevProps)
  || (versionLabel p !== versionLabel prevProps).

Definition jobChanged (p prevProps : Props) : bool :=
  (job p !== job prevProps) || (jobId p !== jobId prevProps).

Definition componentDidUpdate (prevProps : Props) : M unit :=
  enter m_componentDidUpdate ;;
  p <- this_props ;;
  (if versionChanged p prevProps then fetchVersionIfMissing else ret tt) ;;
  (if jobChanged p prevProps then fetchJobIfMissing else ret tt).

Definition toggleModal (isOpen : bool) : M unit :=
  enter m_toggleModal ;;
  setState {| set_modalOpen := Some isOpen; set_canceling := None |}.

Definition openModal : M unit :=
  enter m_openModal ;;
  toggleModal true.

Definition requestCancelJob : M unit :=
  enter m_requestCancelJob ;;
  p <- this_props ;;
  match job p with
  | value j =>
      promise <- dispatch (doRequestCancelJob (job_id (fields j))) ;;
      then_ promise then_setCanceling
  | _ => ret tt
  end.

(** ** Rendering *)

(** The instance methods handed out as click handlers, and the callbacks
    handed to [ShareModal]. *)
Inductive ClickHandler : Type := this_requestCancelJob | this_openModal.

Inductive ToggleHandler : Type := this_toggleModal.

Inductive UpdateHandler : Type := props_doUpdateJob.

Inductive ButtonLabel : Type :=
| text (s : string)
| LabelWithSpinner (label variant size : string).

(** The props of the design system's [Button] that the view sets. *)
Record Button : Type :=
  { label : ButtonLabel;
    variant : option string;
    className : option string;
    iconCategory : option string;
    iconName : option string;
    iconPosition : option string;
    disabled : bool;
    onClick : option ClickHandler }.

(** React nodes, one constructor per component the view instantiates. *)
#[local] Set Warnings "-register-all".
Inductive Element : Type :=
| null_node
| external (node : Placeholder)
| ProductNotFound
| Fragment (children : list Element)
| DocumentTitle (title : string) (children : list Element)
| Header (product_ : Obj Product) (version_ : Obj Version) (plan_ : Obj Plan)
         (navRight : Element)
| ButtonE (b : Button)
| ShareModal (isOpen : bool) (job_ : Obj Job)
             (toggleModal_ : ToggleHandler) (updateJob : UpdateHandler)
| BodyContainer (children : list Element)
| Toasts (job_ : Obj Job) (label_ : string)
| Intro (results cta postMessage : Element)
| JobResults (job_ : Obj Job) (label_ : string)
| CtaButton (job_ : Obj Job) (linkToPlan : string) (canceling_ : bool)
| JobMessage (job_ : Obj Job) (openModal_ : ClickHandler)
| UserInfo (job_ : Obj Job)
| ProgressBar (job_ : Obj Job)
| StepsTable (plan_ : Obj Plan) (job_ : Obj Job).

Definition getCancelBtn (c : Component) : Element :=
  match job (props c) with
  | value j =>
      if (job_status (fields j) === STATUS_STARTED)
         && truthy (job_user_can_edit (fields j))
      then
        if canceling (state c)
        then ButtonE
               {| label := LabelWithSpinner "Canceling Installation..." "base" "x-small";
                  variant := None; className := None;
                  iconCategory := None; iconName := None; iconPosition := None;
                  disabled := true; onClick := None |}
        else ButtonE
               {| label := text "Cancel Installation";
                  variant := Some "base";
                  className := Some "slds-button_text-destructive";
                  iconCategory := None; iconName := None; iconPosition := None;
                  disabled := false; onClick := Some this_requestCancelJob |}
      else null_node
  | _ => null_node
  end.

Definition shareBtn : Button :=
  {| label := text "Share Installation";
     variant := None; className := None;
     iconCategory := Some "utility"; iconName := Some "share";
     iconPosition := Some "left";
     disabled := false; onClick := Some this_openModal |}.

(** The object literal that [render] passes to [getLoadingOrNotFound];
    [isLoggedIn] is [user !== null]. *)
Definition loading_args (p : Props) : LoadingArgs :=
  {| la_product := product p; la_version := version p;
     la_versionLabel := versionLabel p; la_plan := plan p;
     la_job := job p; la_jobId := jobId p;
     la_isLoggedIn := match user p with Some _ => true | None => false end |}.

Definition render (c : Component) : Element :=
  let p := props c in
  match getLoadingOrNotFound (loading_args p) with
  | Some loadingOrNotFound => external loadingOrNotFound
  | None =>
      if negb (truthy (product p)) || negb (truthy (version p))
         || negb (truthy (plan p)) || negb (truthy (job p))
      then ProductNotFound
      else
        match product p, version p, plan p, job p with
        | Some product_, Some version_, Some plan_, value job_ =>
            let linkToPlan :=
              plan_detail (product_slug (fields product_))
                          (version_label (fields version_))
                          (plan_slug (fields plan_)) in
            DocumentTitle
              ("Installation | " ++ plan_title (fields plan_) ++ " | "
               ++ product_title (fields product_) ++ " | MetaDeploy")
              [Fragment
                 [Header product_ version_ plan_
                    (Fragment [getCancelBtn c; ButtonE shareBtn]);
                  ShareModal (modalOpen (state c)) job_
                    this_toggleModal props_doUpdateJob;
                  BodyContainer
                    [Toasts job_ "Installation";
                     Intro (JobResults job_ "Installation")
                           (CtaButton job_ linkToPlan (canceling (state c)))
                           (JobMessage job_ this_openModal);
                     UserInfo job_;
                     ProgressBar job_;
                     if truthy (plan_steps (fields plan_))
                        && match plan_steps (fields plan_) with
                           | Some steps => truthy (length steps)
                           | None => false
                           end
                     then StepsTable plan_ job_
                     else null_node]]]
        | _, _, _, _ => ProductNotFound
        end
  end.

(** A node and all the nodes below it, in document order. *)
Fixpoint subnodes (e : Element) : list Element :=
  e :: match e with
       | Fragment children => flat_map subnodes children
       | DocumentTitle _ children => flat_map subnodes children
       | Header _ _ _ navRight => subnodes navRight
       | BodyContainer children => flat_map subnodes children
       | Intro results cta postMessage =>
           subnodes results ++ subnodes cta ++ subnodes postMessage
       | _ => []
       end.

Definition is_layout (e : Element) : bool :=
  match e with DocumentTitle _ _ => true | _ => false end.

Definition is_stepsTable (e : Element) : bool :=
  match e with StepsTable _ _ => true | _ => false end.

Definition stepsTables (e : Element) : list Element :=
  filter is_stepsTable (subnodes e).

Definition buttons (e : Element) : list Button :=
  flat_map (fun n => match n with ButtonE b => [b] | _ => [] end) (subnodes e).

(** ** The life of an instance

    What React and the children do with a mounted instance: hand it new
    props, call the handlers it gave out, settle the promises it waits on. *)

Definition handle (h : ClickHandler) : M unit :=
  match h with
  | this_requestCancelJob => requestCancelJob
  | this_openModal => openModal
  end.

(** A click on a [Button]: a disabled button ignores it. *)
Definition pressed (b : Button) : M unit :=
  if disabled b then ret tt
  else match onClick b with
       | Some h => handle h
       | None => ret tt
       end.

Definition continue (k : Continuation) : M unit :=
  match k with
  | then_setCanceling =>
      setState {| set_modalOpen := None; set_canceling := Some true |}
  end.

Fixpoint continue_all (ks : list (Promise * Continuation)) : M unit :=
  match ks with
  | [] => ret tt
  | (_, k) :: ks' => continue k ;; continue_all ks'
  end.

(** After [setState], React renders again and calls [componentDidUpdate]
    with the props the instance already had. *)
Definition rerender : M unit :=
  fun c =>
    if updateScheduled c
    then componentDidUpdate (props c)
           {| props := props c; state := state c; effects := effects c;
              thens := thens c; calls := calls c; updateScheduled := false |}
    else (tt, c).

Definition set_props (next : Props) : M Props :=
  fun c => (props c,
            {| props := next; state := state c; effects := effects c;
               thens := thens c; calls := calls c;
               updateScheduled := updateScheduled c |}).

(** The callbacks registered on promise [p], and the instance without them. *)
Definition waiting (p : Promise) (c : Component) : list (Promise * Continuation) :=
  filter (fun pk => Nat.eqb (fst pk) p) (thens c).

Definition settle (p : Promise) : M unit :=
  fun c => (tt, {| props := props c; state := state c; effects := effects c;
                   thens := filter (fun pk => negb (Nat.eqb (fst pk) p)) (thens c);
                   calls := calls c; updateScheduled := updateScheduled c |}).

Inductive Input : Type :=
| receiveProps (next : Props)
| click (n : nat)
| invoke (h : ClickHandler)
| modal_toggle (isOpen : bool)
| resolve (p : Promise)
| reject (p : Promise).

Definition step (i : Input) (c : Component) : option Component :=
  match i with
  | receiveProps next =>
      Some (exec (prevProps <- set_props next ;;
                  componentDidUpdate prevProps ;; rerender) c)
  | click n =>
      match nth_error (buttons (render c)) n with
      | Some b => Some (exec (pressed b ;; rerender) c)
      | None => None
      end
  | invoke h => Some (exec (handle h ;; rerender) c)
  | modal_toggle isOpen => Some (exec (toggleModal isOpen ;; rerender) c)
  | resolve p =>
      match waiting p c with
      | [] => None
      | ks => Some (exec (settle p ;; continue_all ks ;; rerender) c)
      end
  | reject p =>
      match waiting p c with
      | [] => None
      | _ => Some (exec (settle p) c)
      end
  end.

Fixpoint run (inputs : list Input) (c : Component) : option Component :=
  match inputs with
  | [] => Some c
  | i :: rest =>
      match step i c with
      | Some c' => run rest c'
      | None => None
      end
  end.

Definition mount (p : Props) : Component :=
  exec (componentDidMount ;; rerender) (constructor p).

Definition reachable (c : Component) : Prop :=
  exists p inputs, run inputs (mount p) = Some c.

(** ** Observing a method *)

(** The action creators called by [m] from [c], in order. *)
Definition dispatched {A} (m : M A) (c : Component) : list Action :=
  skipn (length (effects c)) (effects (exec m c)).

(** The methods entered while [m] runs from [c], in order. *)
Definition entered {A} (m : M A) (c : Component) : list Method :=
  skipn (length (calls c)) (calls (exec m c)).

(** The condition of [fetchVersionIfMissing], as the source writes it. *)
Definition version_wanted (p : Props) : Prop :=
  present (product p) /\ present (versionLabel p)
  /\ shouldFetchVersion {| va_product := product p; va_version := version p;
                           va_versionLabel := versionLabel p |} = true.

(** The condition of [fetchJobIfMissing]. *)
Definition job_wanted (p : Props) : Prop :=
  job p = undefined /\ present (jobId p).

(** The two groups of props that [componentDidUpdate] watches. *)
Definition version_group_differs (p prevProps : Props) : Prop :=
  differs (product p) (product prevProps)
  \/ differs (version p) (version prevProps)
  \/ differs (versionLabel p) (versionLabel prevProps).

Definition job_group_differs (p prevProps : Props) : Prop :=
  differs (job p) (job prevProps) \/ differs (jobId p) (jobId prevProps).

(** The four entities the full layout needs. *)
Definition all_loaded (p : Props) : Prop :=
  exists product_ version_ plan_ job_,
    product p = Some product_ /\ version p = Some version_
    /\ plan p = Some plan_ /\ job p = value job_.

(** The job is in progress and the viewer may edit it. *)
Definition cancelable (p : Props) : Prop :=
  exists j, job p = value j
            /\ job_status (fields j) = STATUS_STARTED
            /\ job_user_can_edit (fields j) = true.

(** Every callback still waiting hangs on the promise of a
    [doRequestCancelJob] call. *)
Definition thens_wf (c : Component) : Prop :=
  forall q k, In (q, k) (thens c) ->
              exists id, nth_error (effects c) q = Some (doRequestCancelJob id).

(** From [c] to [c']: the effect log only grows, and a callback that was not
    waiting before hangs on a [doRequestCancelJob] call. *)
Definition evolves (c c' : Component) : Prop :=
  (exists l, effects c' = effects c ++ l)
  /\ (forall q k, In (q, k) (thens c') ->
                  In (q, k) (thens c)
                  \/ exists id, nth_error (effects c') q
                                = Some (doRequestCancelJob id)).

(** From [c] to [c']: the [canceling] flag is as it was. *)
Definition same_canceling (c c' : Component) : Prop :=
  canceling (state c') = canceling (state c).

(** From [c] to [c']: the [modalOpen] flag is as it was. *)
Definition same_modalOpen (c c' : Component) : Prop :=
  modalOpen (state c') = modalOpen (state c).

(** Every run of [m] relates the instance before to the instance after. *)
Definition respects (R : Component -> Component -> Prop) {A} (m : M A) : Prop :=
  forall c, R c (exec m c).

Definition Method_eq_dec (a b : Method) : {a = b} + {a <> b}.
Proof. decide equality. Defined.

Definition runs_of (m : Method) (l : list Method) : nat :=
  count_occ Method_eq_dec l m.

End JobDetail.

Arguments null_node {Step Placeholder}.
Arguments external {Step Placeholder} node.
Arguments ProductNotFound {Step Placeholder}.
Arguments ButtonE {Step Placeholder} b.
Arguments StepsTable {Step Placeholder} plan_ job_.
Arguments ShareModal {Step Placeholder} isOpen job_ toggleModal_ updateJob.
Arguments CtaButton {Step Placeholder} job_ linkToPlan canceling_.
Arguments click {User Step} n.
Arguments invoke {User Step} h.
Arguments modal_toggle {User Step} isOpen.
Arguments resolve {User Step} p.
Arguments reject {User Step} p.
Arguments fetchJobIfMissing {User Step}.
Arguments requestCancelJob {User Step}.
Arguments openModal {User Step}.
Arguments toggleModal {User Step} isOpen.
Arguments handle {User Step} h.
Arguments pressed {User Step} b.
Arguments settle {User Step} p.

End Detail.

Import Detail.

(** ** A concrete instance of the collaborators, to run the model on *)

Module Sample.

Definition started : string := "started".

(** Fetch when no version is held. *)
Definition shouldFetch (a : VersionArgs) : bool := negb (truthy (va_version a)).

(** Ready when the four entities are there. *)
Definition loadingOrNotFound (a : LoadingArgs string) : option string :=
  if truthy (la_product a) && truthy (la_version a)
     && truthy (la_plan a) && truthy (la_job a)
  then None else Some "Loading...".

Definition plan_url (product_slug_ version_label_ plan_slug_ : string) : string :=
  "/products/" ++ product_slug_ ++ "/" ++ version_label_ ++ "/" ++ plan_slug_.

Definition a_product : Obj Product :=
  obj 1 {| product_id := "p1"; product_slug := "product-1"; product_title := "Product 1" |}.

Definition a_version : Obj Version := obj 2 {| version_label := "1.0.0" |}.

Definition a_plan : Obj (Plan string) :=
  obj 3 {| plan_slug := "my-plan"; plan_title := "My Plan";
           plan_steps := Some ["Step 1"] |}.

Definition no_steps_plan : Obj (Plan string) :=
  obj 5 {| plan_slug := "my-plan"; plan_title := "My Plan"; plan_steps := Some [] |}.

Definition a_job : Obj Job :=
  obj 4 {| job_id := "job-1"; job_status := "started"; job_user_can_edit := true |}.

(** Everything loaded. *)
Definition loaded_props : Props unit string :=
  {| user := Some tt; product := Some a_product; version := Some a_version;
     versionLabel := value "1.0.0"; plan := Some a_plan;
     job := value a_job; jobId := value "job-1" |}.

Definition no_steps_props : Props unit string :=
  {| user := Some tt; product := Some a_product; version := Some a_version;
     versionLabel := value "1.0.0"; plan := Some no_steps_plan;
     job := value a_job; jobId := value "job-1" |}.

(** Nothing fetched yet: no version, no job. *)
Definition unfetched_props : Props unit string :=
  {| user := Some tt; product := Some a_product; version := None;
     versionLabel := value "1.0.0"; plan := None;
     job := undefined; jobId := value "job-1" |}.

(** The job was asked for and is not there. *)
Definition job_not_found_props : Props unit string :=
  {| user := Some tt; product := Some a_product; version := Some a_version;
     versionLabel := value "1.0.0"; plan := Some a_plan;
     job := null; jobId := value "job-1" |}.

(** No version yet, and the job was asked for and is not there. *)
Definition version_unfetched_props : Props unit string :=
  {| user := Some tt; product := Some a_product; version := None;
     versionLabel := value "1.0.0"; plan := None;
     job := null; jobId := value "job-1" |}.

Definition no_product_props : Props unit string :=
  {| user := None; product := None; version := None;
     versionLabel := value "1.0.0"; plan := None;
     job := undefined; jobId := value "job-1" |}.

(** The instance mounted with everything loaded, after some inputs. *)
Definition after (inputs : list (Input unit string)) : Component unit string :=
  match run started shouldFetch loadingOrNotFound plan_url inputs
            (mount shouldFetch loaded_props)
  with
  | Some c => c
  | None => constructor loaded_props
  end.

(** An instance mounted with [p], after some inputs. *)
Definition run_from (p : Props unit string) (inputs : list (Input unit string)) :
  Component unit string :=
  match run started shouldFetch loadingOrNotFound plan_url inputs
            (mount shouldFetch p)
  with
  | Some c => c
  | None => constructor p
  end.

(** Everything loaded, for a user known by a number. *)
Definition props_of_user (u : option nat) : Props nat string :=
  {| user := u; product := Some a_product; version := Some a_version;
     versionLabel := value "1.0.0"; plan := Some a_plan;
     job := value a_job; jobId := value "job-1" |}.

End Sample.

(** ** Properties *)

Unset Implicit Arguments.

Section Properties.

Context {User Step Placeholder : Type}.
Variable STATUS_STARTED : string.
Variable shouldFetchVersion : VersionArgs -> bool.
Variable getLoadingOrNotFound : LoadingArgs Step -> option Placeholder.
Variable plan_detail : string -> string -> string -> string.

Local Notation "x <- m ;; k" := (bind m (fun x => k))
  (at level 61, m at next level, right associativity).
Local Notation "m ;; k" := (bind m (fun _ => k))
  (at level 61, right associativity).

Local Abbreviation Component := (Component User Step).
Local Abbreviation Props := (Props User Step).
Local Abbreviation fetchVersionIfMissing :=
  (@fetchVersionIfMissing User Step shouldFetchVersion).
Local Abbreviation fetchJobIfMissing := (@fetchJobIfMissing User Step).
Local Abbreviation componentDidMount :=
  (@componentDidMount User Step shouldFetchVersion).
Local Abbreviation componentDidUpdate :=
  (@componentDidUpdate User Step shouldFetchVersion).
Local Abbreviation getCancelBtn :=
  (@getCancelBtn User Step Placeholder STATUS_STARTED).
Local Abbreviation render :=
  (@render User Step Placeholder STATUS_STARTED getLoadingOrNotFound plan_detail).
Local Abbreviation step :=
  (@step User Step Placeholder STATUS_STARTED shouldFetchVersion
         getLoadingOrNotFound plan_detail).
Local Abbreviation run :=
  (@run User Step Placeholder STATUS_STARTED shouldFetchVersion
        getLoadingOrNotFound plan_detail).
Local Abbreviation mount := (@mount User Step shouldFetchVersion).
Local Abbreviation reachable :=
  (@reachable User Step Placeholder STATUS_STARTED shouldFetchVersion
              getLoadingOrNotFound plan_detail).
Local Abbreviation rerender := (@rerender User Step shouldFetchVersion).
Local Abbreviation requestCancelJob := (@requestCancelJob User Step).
Local Abbreviation openModal := (@openModal User Step).
Local Abbreviation toggleModal := (@toggleModal User Step).
Local Abbreviation handle := (@handle User Step).
Local Abbreviation pressed := (@pressed User Step).
Local Abbreviation continue_all := (@continue_all User Step).
Local Abbreviation settle := (@settle User Step).
Local Abbreviation set_props := (@set_props User Step).
Local Abbreviation same_canceling := (@same_canceling User Step).
Local Abbreviation same_modalOpen := (@same_modalOpen User Step).
Local Abbreviation evolves := (@evolves User Step).
Local Abbreviation thens_wf := (@thens_wf User Step).
Local Abbreviation version_wanted :=
  (@version_wanted User Step shouldFetchVersion).
Local Abbreviation loading_args := (@loading_args User Step).
Local Abbreviation cancelable := (@cancelable User Step STATUS_STARTED).

(** *** Reading the logs *)

Lemma skipn_length_app {A} (l l' : list A) : skipn (length l) (l ++ l') = l'.
Proof. induction l as [|a l IH]; simpl; [reflexivity | exact IH]. Qed.

Lemma skipn_length_self {A} (l : list A) : skipn (length l) l = [].
Proof. induction l as [|a l IH]; simpl; [reflexivity | exact IH]. Qed.

Lemma present_option {A} `{Truthy A} (o : option A) :
  present o -> exists a, o = Some a /\ present a.
Proof. destruct o as [a|]; [intros Ha; exists a; split; auto | discriminate]. Qed.

Lemma present_maybe {A} `{Truthy A} (m : Maybe A) :
  present m -> exists a, m = value a /\ present a.
Proof. destruct m as [| |a]; try discriminate. intros Ha; exists a; split; auto. Qed.

Lemma present_string (s : string) : present s <-> s <> "".
Proof.
  destruct s; unfold present; simpl; split; intro H;
    try reflexivity; try discriminate; exfalso; apply H; reflexivity.
Qed.

(** *** The fetch policy *)

(** C2. [fetchVersionIfMissing] calls [doFetchVersion] exactly once, with the
    product's id and the version label, when the product and the label are
    present (taken for true by [&&]: not [null], not [undefined], and for the
    label not the empty string) and [shouldFetchVersion] answers true on
    (product, version, versionLabel); in every other case it calls no action
    creator at all. *)
Theorem fetchVersionIfMissing_dispatches (c : Component) :
  (version_wanted (props c) ->
   exists prod lbl,
     product (props c) = Some prod /\ versionLabel (props c) = value lbl
     /\ dispatched fetchVersionIfMissing c
          = [doFetchVersion (product_id (fields prod)) lbl])
  /\ (~ version_wanted (props c) -> dispatched fetchVersionIfMissing c = []).
Proof.
  unfold version_wanted, dispatched, exec, Detail.fetchVersionIfMissing,
    bind, enter, this_props, dispatch, ret.
  simpl. split.
  - intros (Hp & Hl & Hs).
    destruct (present_option _ Hp) as (prod & Eprod & _).
    destruct (present_maybe _ Hl) as (lbl & Elbl & _).
    exists prod, lbl. split; [exact Eprod|]. split; [exact Elbl|].
    unfold present in Hp, Hl. rewrite Hp, Hl, Hs. simpl.
    rewrite Eprod, Elbl. simpl. apply skipn_length_app.
  - intros Hn.
    destruct (truthy (product (props c))) eqn:Ep; simpl;
      [| apply skipn_length_self].
    destruct (truthy (versionLabel (props c))) eqn:El; simpl;
      [| apply skipn_length_self].
    match goal with |- context [shouldFetchVersion ?a] =>
      destruct (shouldFetchVersion a) eqn:Es end; [| apply skipn_length_self].
    exfalso. apply Hn. unfold present. auto.
Qed.

(** C3. [fetchJobIfMissing] calls [doFetchJob], once and with the job id,
    exactly when the job is [undefined] (not yet requested) and the job id is
    present (not [null], not [undefined], not the empty string); for any
    other job, [null] (requested and not found) included, it calls no action
    creator. *)
Theorem fetchJobIfMissing_dispatches (c : Component) :
  (job_wanted (props c) ->
   exists id, jobId (props c) = value id
              /\ dispatched fetchJobIfMissing c = [doFetchJob id])
  /\ (~ job_wanted (props c) -> dispatched fetchJobIfMissing c = [])
  /\ (job (props c) = null -> dispatched fetchJobIfMissing c = [])
  /\ ((exists id, In (doFetchJob id) (dispatched fetchJobIfMissing c))
      <-> job_wanted (props c)).
Proof.
  assert (Hyes : job_wanted (props c) ->
                 exists id, jobId (props c) = value id
                   /\ dispatched fetchJobIfMissing c = [doFetchJob id]).
  { intros [Hj Hid].
    destruct (present_maybe _ Hid) as (id & Eid & _). exists id. split; [exact Eid|].
    unfold dispatched, exec, Detail.fetchJobIfMissing, bind, enter,
      this_props, dispatch, ret. simpl.
    rewrite Hj, Eid. unfold present in Hid. rewrite Eid in Hid.
    simpl in *. rewrite Hid. simpl. apply skipn_length_app. }
  assert (Hno : ~ job_wanted (props c) -> dispatched fetchJobIfMissing c = []).
  { intros Hn.
    unfold dispatched, exec, Detail.fetchJobIfMissing, bind, enter,
      this_props, dispatch, ret. simpl.
    destruct (job (props c)) as [| |j] eqn:Ej; simpl;
      try apply skipn_length_self.
    destruct (truthy (jobId (props c))) eqn:Eid; simpl;
      [| apply skipn_length_self].
    exfalso. apply Hn. split; [exact Ej | exact Eid]. }
  split; [exact Hyes|]. split; [exact Hno|]. split.
  - intros Hnull. apply Hno. intros [Hu _]. congruence.
  - split.
    + intros [id Hin].
      destruct (job (props c)) as [| |j] eqn:Ej;
        destruct (truthy (jobId (props c))) eqn:Eid;
        try (split; [exact Ej | exact Eid]);
        exfalso;
        (rewrite Hno in Hin; [exact Hin |]); intros [Hu Hp];
        unfold present in Hp; congruence.
    + intros Hw. destruct (Hyes Hw) as (id & _ & Hd).
      exists id. rewrite Hd. left; reflexivity.
Qed.

(** *** The lifecycle hooks *)

Ltac unfold_methods :=
  unfold exec, Detail.componentDidMount, Detail.componentDidUpdate,
    Detail.fetchVersionIfMissing, Detail.fetchJobIfMissing,
    Detail.requestCancelJob, Detail.openModal, Detail.toggleModal,
    setState, then_,
    bind, enter, this_props, this_state, dispatch, ret;
  simpl.

(** Closes a goal on what was appended to a log. *)
Ltac suffix :=
  simpl; repeat rewrite <- app_assoc; simpl;
  first [ apply skipn_length_app | apply skipn_length_self ].

Lemma fetchVersionIfMissing_entered (c : Component) :
  entered fetchVersionIfMissing c = [m_fetchVersionIfMissing].
Proof.
  unfold entered. unfold_methods.
  destruct (truthy (product (props c)) && truthy (versionLabel (props c))
            && shouldFetchVersion _); [| suffix].
  destruct (product (props c)); [| suffix].
  destruct (versionLabel (props c)); suffix.
Qed.

Lemma fetchJobIfMissing_entered (c : Component) :
  entered fetchJobIfMissing c = [m_fetchJobIfMissing].
Proof.
  unfold entered. unfold_methods.
  destruct ((job (props c) === undefined) && truthy (jobId (props c)));
    [| suffix].
  destruct (jobId (props c)); suffix.
Qed.

Lemma componentDidMount_entered (c : Component) :
  entered componentDidMount c
  = [m_componentDidMount; m_fetchVersionIfMissing; m_fetchJobIfMissing].
Proof.
  unfold entered. unfold_methods.
  destruct (truthy (product (props c)) && truthy (versionLabel (props c))
            && shouldFetchVersion _);
    destruct (product (props c)); destruct (versionLabel (props c)); simpl;
    destruct ((job (props c) === undefined) && truthy (jobId (props c)));
    destruct (jobId (props c)); suffix.
Qed.

Lemma componentDidUpdate_entered (prevProps : Props) (c : Component) :
  entered (componentDidUpdate prevProps) c
  = m_componentDidUpdate
    :: (if versionChanged (props c) prevProps
        then [m_fetchVersionIfMissing] else [])
    ++ (if jobChanged (props c) prevProps then [m_fetchJobIfMissing] else []).
Proof.
  unfold entered. unfold_methods.
  destruct (versionChanged (props c) prevProps);
    destruct (jobChanged (props c) prevProps); simpl;
    try destruct (truthy (product (props c)) && truthy (versionLabel (props c))
                  && shouldFetchVersion _);
    try destruct (product (props c)); try destruct (versionLabel (props c));
    simpl;
    try destruct ((job (props c) === undefined) && truthy (jobId (props c)));
    try destruct (jobId (props c)); suffix.
Qed.

Lemma componentDidUpdate_unchanged (prevProps : Props) (c : Component) :
  versionChanged (props c) prevProps = false ->
  jobChanged (props c) prevProps = false ->
  exec (componentDidUpdate prevProps) c
  = {| props := props c; state := state c; effects := effects c;
       thens := thens c; calls := calls c ++ [m_componentDidUpdate];
       updateScheduled := updateScheduled c |}.
Proof. intros Hv Hj. unfold_methods. rewrite Hv, Hj. reflexivity. Qed.

Lemma versionChanged_differs (p prevProps : Props) :
  versionChanged p prevProps = true <-> version_group_differs p prevProps.
Proof.
  unfold versionChanged, version_group_differs, differs.
  rewrite !orb_true_iff. apply or_assoc.
Qed.

Lemma jobChanged_differs (p prevProps : Props) :
  jobChanged p prevProps = true <-> job_group_differs p prevProps.
Proof.
  unfold jobChanged, job_group_differs, differs.
  rewrite orb_true_iff. reflexivity.
Qed.

(** *** Rendering *)

(** C1. [render] yields the full layout only when product, version, plan
    and job are all there; with a [null] product it yields what
    [getLoadingOrNotFound] gave, or the not-found view, and not the layout. *)
Theorem render_layout_only_when_loaded (c : Component) :
  (is_layout (render c) = true -> all_loaded (props c))
  /\ (product (props c) = None ->
      is_layout (render c) = false
      /\ (render c = ProductNotFound
          \/ exists node,
               getLoadingOrNotFound (loading_args (props c)) = Some node
               /\ render c = external node)).
Proof.
  unfold Detail.render, all_loaded. cbv zeta. split.
  - destruct (getLoadingOrNotFound _); [discriminate|].
    destruct (product (props c)) as [product_|]; [| discriminate].
    destruct (version (props c)) as [version_|]; [| discriminate].
    destruct (plan (props c)) as [plan_|]; [| discriminate].
    destruct (job (props c)) as [| |job_]; try discriminate.
    intros _. exists product_, version_, plan_, job_. repeat split.
  - intros Hnull. rewrite Hnull.
    destruct (getLoadingOrNotFound _) as [node|] eqn:Hl.
    + split; [reflexivity|]. right. exists node. split; reflexivity.
    + split; [reflexivity|]. left. reflexivity.
Qed.

Lemma getCancelBtn_cases (c : Component) :
  getCancelBtn c = null_node \/ exists b, getCancelBtn c = ButtonE b.
Proof.
  unfold Detail.getCancelBtn.
  destruct (job (props c)) as [| |j]; auto.
  destruct ((job_status (fields j) === STATUS_STARTED)
            && truthy (job_user_can_edit (fields j))); auto.
  destruct (canceling (state c)); right; eexists; reflexivity.
Qed.

Lemma layout_buttons (c : Component) :
  is_layout (render c) = true ->
  buttons (render c) = buttons (getCancelBtn c) ++ [shareBtn].
Proof.
  unfold Detail.render. cbv zeta.
  destruct (getLoadingOrNotFound _); [discriminate|].
  destruct (product (props c)) as [product_|]; [| discriminate].
  destruct (version (props c)) as [version_|]; [| discriminate].
  destruct (plan (props c)) as [plan_|]; [| discriminate].
  destruct (job (props c)) as [| |job_] eqn:Ej; try discriminate.
  intros _. unfold buttons. simpl.
  rewrite !flat_map_app. simpl.
  destruct (truthy (plan_steps (fields plan_)) && _); simpl;
    destruct (getCancelBtn_cases c) as [E | [b E]]; rewrite E; reflexivity.
Qed.

(** C5. [getCancelBtn] yields a button exactly when there is a job whose
    status is [CONSTANTS.STATUS.STARTED] and whose [user_can_edit] is true,
    whatever the local state; otherwise, and so for a [null] or [undefined]
    job, it yields [null].  Where the full layout is rendered, its buttons
    are what [getCancelBtn] yields followed by the share button. *)
Theorem getCancelBtn_rendered (c : Component) :
  ((exists b, getCancelBtn c = ButtonE b) <-> cancelable (props c))
  /\ (~ cancelable (props c) -> getCancelBtn c = null_node)
  /\ (job (props c) = null \/ job (props c) = undefined ->
      getCancelBtn c = null_node)
  /\ (is_layout (render c) = true ->
      buttons (render c) = buttons (getCancelBtn c) ++ [shareBtn]).
Proof.
  assert (Hiff : (exists b, getCancelBtn c = ButtonE b) <-> cancelable (props c)).
  { unfold Detail.getCancelBtn, Detail.cancelable. split.
    - intros [b Hb].
      destruct (job (props c)) as [| |j]; try discriminate.
      destruct (job_status (fields j) === STATUS_STARTED) eqn:Hs;
        [| discriminate].
      destruct (job_user_can_edit (fields j)) eqn:He; [| discriminate].
      exists j. repeat split; auto. apply String.eqb_eq. exact Hs.
    - intros (j & Ej & Hs & He). rewrite Ej, He.
      apply String.eqb_eq in Hs. unfold strict_eq, strict_eq_string.
      rewrite Hs. simpl.
      destruct (canceling (state c)); eexists; reflexivity. }
  split; [exact Hiff|]. split.
  - intros Hn. destruct (getCancelBtn_cases c) as [E | E]; [exact E|].
    exfalso. apply Hn. apply Hiff. exact E.
  - split; [| apply layout_buttons].
    unfold Detail.getCancelBtn. intros [E | E]; rewrite E; reflexivity.
Qed.

(** C8. In the full layout the steps table is there exactly when
    [plan.steps] is an array with at least one step, and then it is one
    [StepsTable] given the plan and the job; with no steps the layout holds
    no steps table. *)
Theorem stepsTable_rendered (c : Component) :
  is_layout (render c) = true ->
  exists plan_ job_,
    plan (props c) = Some plan_ /\ job (props c) = value job_
    /\ ((exists s ss, plan_steps (fields plan_) = Some (s :: ss)) ->
        stepsTables (render c) = [StepsTable plan_ job_])
    /\ (plan_steps (fields plan_) = None \/ plan_steps (fields plan_) = Some [] ->
        stepsTables (render c) = []).
Proof.
  unfold stepsTables, Detail.render. cbv zeta.
  destruct (getLoadingOrNotFound _); [discriminate|].
  destruct (product (props c)) as [product_|]; [| discriminate].
  destruct (version (props c)) as [version_|]; [| discriminate].
  destruct (plan (props c)) as [plan_|]; [| discriminate].
  destruct (job (props c)) as [| |job_] eqn:Ej; try discriminate.
  intros _. exists plan_, job_. split; [reflexivity|]. split; [reflexivity|].
  assert (Hbtn : filter (@is_stepsTable Step Placeholder)
                   (subnodes (getCancelBtn c)) = []).
  { destruct (getCancelBtn_cases c) as [E | [b E]]; rewrite E; reflexivity. }
  split.
  - intros (s & ss & Hs). rewrite Hs. simpl.
    rewrite !filter_app, Hbtn. reflexivity.
  - intros [Hs | Hs]; rewrite Hs; simpl; rewrite !filter_app, Hbtn; reflexivity.
Qed.

(** *** The cancel control *)

Lemma strict_eq_same_obj {A} (o : option (Obj A)) : (o === o) = true.
Proof. destruct o as [[a f]|]; simpl; [apply Nat.eqb_refl | reflexivity]. Qed.

Lemma strict_eq_same_maybe_obj {A} (o : Maybe (Obj A)) : (o === o) = true.
Proof. destruct o as [| |[a f]]; simpl; try reflexivity. apply Nat.eqb_refl. Qed.

Lemma strict_eq_same_maybe_string (o : Maybe string) : (o === o) = true.
Proof. destruct o as [| |s]; simpl; try reflexivity. apply String.eqb_refl. Qed.

Lemma versionChanged_same (p : Props) : versionChanged p p = false.
Proof.
  unfold versionChanged, strict_neq.
  rewrite !strict_eq_same_obj, strict_eq_same_maybe_string. reflexivity.
Qed.

Lemma jobChanged_same (p : Props) : jobChanged p p = false.
Proof.
  unfold jobChanged, strict_neq.
  rewrite strict_eq_same_maybe_obj, strict_eq_same_maybe_string. reflexivity.
Qed.

Lemma rerender_exec (c : Component) :
  exec rerender c
  = if updateScheduled c
    then {| props := props c; state := state c; effects := effects c;
            thens := thens c; calls := calls c ++ [m_componentDidUpdate];
            updateScheduled := false |}
    else c.
Proof.
  unfold exec, Detail.rerender.
  destruct (updateScheduled c); [| reflexivity].
  fold (exec (componentDidUpdate (props c))
          {| props := props c; state := state c; effects := effects c;
             thens := thens c; calls := calls c; updateScheduled := false |}).
  rewrite componentDidUpdate_unchanged;
    [reflexivity | apply versionChanged_same | apply jobChanged_same].
Qed.

Lemma exec_bind {A B} (m : M User Step A) (f : A -> M User Step B) (c : Component) :
  exec (bind m f) c = exec (f (fst (m c))) (snd (m c)).
Proof. unfold exec, bind. destruct (m c). reflexivity. Qed.

Lemma requestCancelJob_exec (c : Component) :
  exec requestCancelJob c
  = match job (props c) with
    | value j =>
        {| props := props c; state := state c;
           effects := effects c ++ [doRequestCancelJob (job_id (fields j))];
           thens := thens c ++ [(length (effects c), then_setCanceling)];
           calls := calls c ++ [m_requestCancelJob];
           updateScheduled := updateScheduled c |}
    | _ =>
        {| props := props c; state := state c; effects := effects c;
           thens := thens c; calls := calls c ++ [m_requestCancelJob];
           updateScheduled := updateScheduled c |}
    end.
Proof. unfold_methods. destruct (job (props c)); reflexivity. Qed.

Lemma getCancelBtn_enabled (c : Component) (j : Obj Job) :
  job (props c) = value j ->
  job_status (fields j) = STATUS_STARTED ->
  job_user_can_edit (fields j) = true ->
  canceling (state c) = false ->
  getCancelBtn c
  = ButtonE {| label := text "Cancel Installation";
               variant := Some "base";
               className := Some "slds-button_text-destructive";
               iconCategory := None; iconName := None; iconPosition := None;
               disabled := false; onClick := Some this_requestCancelJob |}.
Proof.
  intros Ej Hs He Hc. unfold Detail.getCancelBtn.
  rewrite Ej, He, Hc. apply String.eqb_eq in Hs.
  unfold strict_eq, strict_eq_string. rewrite Hs. reflexivity.
Qed.

Lemma getCancelBtn_busy (c : Component) :
  cancelable (props c) ->
  canceling (state c) = true ->
  getCancelBtn c
  = ButtonE {| label := LabelWithSpinner "Canceling Installation..." "base" "x-small";
               variant := None; className := None;
               iconCategory := None; iconName := None; iconPosition := None;
               disabled := true; onClick := None |}.
Proof.
  intros (j & Ej & Hs & He) Hc. unfold Detail.getCancelBtn.
  rewrite Ej, He, Hc. apply String.eqb_eq in Hs.
  unfold strict_eq, strict_eq_string. rewrite Hs. reflexivity.
Qed.

(** C7. With a job whose status is [CONSTANTS.STATUS.STARTED] and whose
    [user_can_edit] is true, and [canceling] false, [getCancelBtn] yields an
    enabled button; one click on it calls [doRequestCancelJob] once, with
    the job's id, and nothing else.  In the full layout that button is the
    first one of the page, and the click step has the same effect. *)
Theorem cancel_button_click (c : Component) (j : Obj Job) :
  job (props c) = value j ->
  job_status (fields j) = STATUS_STARTED ->
  job_user_can_edit (fields j) = true ->
  canceling (state c) = false ->
  exists b,
    getCancelBtn c = ButtonE b
    /\ disabled b = false
    /\ dispatched (pressed b) c = [doRequestCancelJob (job_id (fields j))]
    /\ (is_layout (render c) = true ->
        nth_error (buttons (render c)) 0 = Some b
        /\ exists c', step (click 0) c = Some c'
                      /\ effects c'
                         = effects c ++ [doRequestCancelJob (job_id (fields j))]).
Proof.
  intros Ej Hs He Hc.
  pose proof (getCancelBtn_enabled c j Ej Hs He Hc) as Hb.
  eexists. split; [exact Hb|]. split; [reflexivity|].
  assert (Hd : forall b, disabled b = false ->
                 onClick b = Some this_requestCancelJob ->
                 exec (pressed b) c = exec requestCancelJob c).
  { intros b Hdis Hon. unfold Detail.pressed. rewrite Hdis, Hon. reflexivity. }
  split.
  - unfold dispatched. rewrite Hd by reflexivity.
    rewrite requestCancelJob_exec, Ej. simpl. apply skipn_length_app.
  - intros Hl. rewrite (layout_buttons c Hl), Hb.
    split; [reflexivity|].
    unfold Detail.step. rewrite (layout_buttons c Hl), Hb. simpl.
    eexists. split; [reflexivity|].
    rewrite exec_bind. rewrite rerender_exec.
    change (snd (pressed ?b c)) with (exec (pressed b) c).
    rewrite Hd by reflexivity. rewrite requestCancelJob_exec, Ej. simpl.
    destruct (updateScheduled c); reflexivity.
Qed.

(** C10. [requestCancelJob] with a [null] or [undefined] job calls no action
    creator, registers no callback and leaves both state fields, and the
    props, as they were. *)
Theorem requestCancelJob_without_job (c : Component) :
  job (props c) = null \/ job (props c) = undefined ->
  dispatched requestCancelJob c = []
  /\ effects (exec requestCancelJob c) = effects c
  /\ state (exec requestCancelJob c) = state c
  /\ thens (exec requestCancelJob c) = thens c
  /\ props (exec requestCancelJob c) = props c
  /\ updateScheduled (exec requestCancelJob c) = updateScheduled c.
Proof.
  intros Hj. unfold dispatched. rewrite requestCancelJob_exec.
  destruct Hj as [E | E]; rewrite E; simpl;
    repeat split; apply skipn_length_self.
Qed.

(** *** Relations kept by every method *)

Section Respects.

Variable R : Component -> Component -> Prop.
Hypothesis R_refl : forall c, R c c.
Hypothesis R_trans : forall c1 c2 c3, R c1 c2 -> R c2 c3 -> R c1 c3.

Lemma respects_ret {A} (a : A) : respects R (ret (User := User) (Step := Step) a).
Proof. intros c. apply R_refl. Qed.

Lemma respects_bind {A B} (m : M User Step A) (f : A -> M User Step B) :
  respects R m -> (forall a, respects R (f a)) -> respects R (bind m f).
Proof.
  intros Hm Hf c. rewrite exec_bind.
  eapply R_trans; [apply Hm | apply Hf].
Qed.

Lemma respects_this_props : respects R (this_props (User := User) (Step := Step)).
Proof. intros c. apply R_refl. Qed.

Lemma respects_if {A} (b : bool) (m1 m2 : M User Step A) :
  respects R m1 -> respects R m2 -> respects R (if b then m1 else m2).
Proof. destruct b; auto. Qed.

Hypothesis R_enter : forall m, respects R (enter (User := User) (Step := Step) m).
Hypothesis R_dispatch : forall a, respects R (dispatch (User := User) (Step := Step) a).

Lemma respects_fetchVersionIfMissing : respects R fetchVersionIfMissing.
Proof.
  unfold Detail.fetchVersionIfMissing.
  apply respects_bind; [apply R_enter | intros _].
  apply respects_bind; [apply respects_this_props | intros p].
  apply respects_if; [| apply respects_ret].
  destruct (product p); [| apply respects_ret].
  destruct (versionLabel p); try apply respects_ret.
  apply respects_bind; [apply R_dispatch | intros _; apply respects_ret].
Qed.

Lemma respects_fetchJobIfMissing : respects R fetchJobIfMissing.
Proof.
  unfold Detail.fetchJobIfMissing.
  apply respects_bind; [apply R_enter | intros _].
  apply respects_bind; [apply respects_this_props | intros p].
  apply respects_if; [| apply respects_ret].
  destruct (jobId p); try apply respects_ret.
  apply respects_bind; [apply R_dispatch | intros _; apply respects_ret].
Qed.

Lemma respects_componentDidMount : respects R componentDidMount.
Proof.
  unfold Detail.componentDidMount.
  apply respects_bind; [apply R_enter | intros _].
  apply respects_bind; [apply respects_fetchVersionIfMissing | intros _].
  apply respects_fetchJobIfMissing.
Qed.

Lemma respects_componentDidUpdate (prevProps : Props) :
  respects R (componentDidUpdate prevProps).
Proof.
  unfold Detail.componentDidUpdate.
  apply respects_bind; [apply R_enter | intros _].
  apply respects_bind; [apply respects_this_props | intros p].
  apply respects_bind; [| intros _];
    (apply respects_if; [| apply respects_ret]).
  - apply respects_fetchVersionIfMissing.
  - apply respects_fetchJobIfMissing.
Qed.

Hypothesis R_flag :
  forall c, R c {| props := props c; state := state c; effects := effects c;
                   thens := thens c; calls := calls c; updateScheduled := false |}.

Lemma respects_rerender : respects R rerender.
Proof.
  intros c. unfold exec, Detail.rerender.
  destruct (updateScheduled c); [| apply R_refl].
  eapply R_trans; [apply R_flag | apply respects_componentDidUpdate].
Qed.

End Respects.

(** *** The [canceling] flag under the methods *)

Lemma same_canceling_refl (c : Component) : same_canceling c c.
Proof. reflexivity. Qed.

Lemma same_canceling_trans (c1 c2 c3 : Component) :
  same_canceling c1 c2 -> same_canceling c2 c3 -> same_canceling c1 c3.
Proof. unfold Detail.same_canceling. congruence. Qed.

Lemma same_canceling_componentDidUpdate (prevProps : Props) :
  respects same_canceling (componentDidUpdate prevProps).
Proof.
  apply respects_componentDidUpdate;
    [apply same_canceling_refl | apply same_canceling_trans | |];
    intros ? c; reflexivity.
Qed.

Lemma same_canceling_rerender : respects same_canceling rerender.
Proof.
  apply respects_rerender;
    [apply same_canceling_refl | apply same_canceling_trans | | |];
    intros; try (intros c); reflexivity.
Qed.

Lemma same_canceling_componentDidMount : respects same_canceling componentDidMount.
Proof.
  apply respects_componentDidMount;
    [apply same_canceling_refl | apply same_canceling_trans | |];
    intros ? c; reflexivity.
Qed.

Lemma same_canceling_toggleModal (isOpen : bool) :
  respects same_canceling (toggleModal isOpen).
Proof. intros c. reflexivity. Qed.

Lemma same_canceling_handle (h : ClickHandler) : respects same_canceling (handle h).
Proof.
  destruct h; intros c; unfold Detail.same_canceling; simpl.
  - rewrite requestCancelJob_exec. destruct (job (props c)); reflexivity.
  - reflexivity.
Qed.

Lemma same_canceling_pressed (b : Button) : respects same_canceling (pressed b).
Proof.
  unfold Detail.pressed.
  destruct (disabled b); [intros c; reflexivity|].
  destruct (onClick b); [apply same_canceling_handle | intros c; reflexivity].
Qed.

Lemma same_canceling_then_rerender {A} (m : M User Step A) :
  respects same_canceling m -> respects same_canceling (m ;; rerender).
Proof.
  intros Hm.
  apply respects_bind;
    [apply same_canceling_trans | exact Hm | intros _; apply same_canceling_rerender].
Qed.

Lemma continue_all_state (ks : list (Promise * Continuation)) (c : Component) :
  ks <> [] -> canceling (state (exec (continue_all ks) c)) = true.
Proof.
  destruct ks as [|[q k] ks]; [congruence | intros _].
  simpl. rewrite exec_bind.
  assert (Hkeep : forall l c0, canceling (state c0) = true ->
                    canceling (state (exec (continue_all l) c0)) = true).
  { induction l as [|[q' k'] l IH]; intros c0 Hc0; [exact Hc0|].
    simpl. rewrite exec_bind. apply IH. destruct k'. reflexivity. }
  apply Hkeep. destruct k. reflexivity.
Qed.

(** A step that is not the resolution of a promise keeps the flag. *)
Lemma step_same_canceling (i : Input User Step) (c c' : Component) :
  step i c = Some c' ->
  (forall q, i <> resolve q) ->
  canceling (state c') = canceling (state c).
Proof.
  intros Hstep Hi. destruct i as [next | n | h | isOpen | q | q]; simpl in Hstep.
  - injection Hstep as <-.
    apply (respects_bind _ same_canceling_trans).
    + intros c0. reflexivity.
    + intros prevProps. apply same_canceling_then_rerender.
      apply same_canceling_componentDidUpdate.
  - destruct (nth_error _ n) as [b|]; [| discriminate].
    injection Hstep as <-.
    apply same_canceling_then_rerender, same_canceling_pressed.
  - injection Hstep as <-.
    apply same_canceling_then_rerender, same_canceling_handle.
  - injection Hstep as <-.
    apply same_canceling_then_rerender, same_canceling_toggleModal.
  - exfalso. apply (Hi q). reflexivity.
  - destruct (waiting q c); [discriminate|]. injection Hstep as <-. reflexivity.
Qed.

(** The resolution of a promise with a callback waiting sets the flag. *)
Lemma step_resolve_canceling (q : Promise) (c c' : Component) :
  step (resolve q) c = Some c' ->
  canceling (state c') = true /\ waiting q c <> [].
Proof.
  unfold Detail.step. destruct (waiting q c) as [|pk ks] eqn:Hw; [discriminate|].
  intros Hstep. injection Hstep as <-. split; [| discriminate].
  rewrite exec_bind, exec_bind.
  etransitivity; [apply same_canceling_rerender|].
  apply (continue_all_state (pk :: ks) (snd (settle q c))). discriminate.
Qed.

Lemma step_canceling_stays (i : Input User Step) (c c' : Component) :
  step i c = Some c' ->
  canceling (state c) = true -> canceling (state c') = true.
Proof.
  intros Hstep Hc. destruct i as [next | n | h | isOpen | q | q];
    try (rewrite (step_same_canceling _ c c' Hstep); [exact Hc | discriminate]).
  apply (step_resolve_canceling q c c' Hstep).
Qed.

Lemma run_canceling_stays (inputs : list (Input User Step)) (c c' : Component) :
  run inputs c = Some c' ->
  canceling (state c) = true -> canceling (state c') = true.
Proof.
  revert c. induction inputs as [|i rest IH]; intros c Hrun Hc; simpl in Hrun.
  - injection Hrun as <-. exact Hc.
  - destruct (step i c) as [c1|] eqn:Hstep; [| discriminate].
    apply (IH c1 Hrun). apply (step_canceling_stays i c c1 Hstep Hc).
Qed.

(** *** The waiting callbacks under the methods *)

Lemma evolves_refl (c : Component) : evolves c c.
Proof.
  split; [exists []; symmetry; apply app_nil_r | intros q k Hin; left; exact Hin].
Qed.

Lemma nth_error_grows {A} (l l' : list A) (n : nat) (a : A) :
  nth_error l n = Some a -> nth_error (l ++ l') n = Some a.
Proof.
  intros Hn. rewrite nth_error_app1; [exact Hn|].
  apply nth_error_Some. congruence.
Qed.

Lemma evolves_trans (c1 c2 c3 : Component) :
  evolves c1 c2 -> evolves c2 c3 -> evolves c1 c3.
Proof.
  intros [[l1 He1] Ht1] [[l2 He2] Ht2]. split.
  - exists (l1 ++ l2). rewrite He2, He1. symmetry. apply app_assoc.
  - intros q k Hin. destruct (Ht2 q k Hin) as [Hin2 | Hnew]; [| right; exact Hnew].
    destruct (Ht1 q k Hin2) as [Hin1 | [id Hid]]; [left; exact Hin1 | right].
    exists id. rewrite He2. apply nth_error_grows. exact Hid.
Qed.

(** Growing the effect log and dropping callbacks is an evolution. *)
Lemma evolves_incl (c c' : Component) (l : list Action) :
  effects c' = effects c ++ l ->
  incl (thens c') (thens c) ->
  evolves c c'.
Proof.
  intros He Hi. split; [exists l; exact He | intros q k Hin; left; apply Hi, Hin].
Qed.

Lemma evolves_enter (m : Method) : respects evolves (enter m).
Proof.
  intros c. apply (evolves_incl _ _ []); simpl;
    [symmetry; apply app_nil_r | apply incl_refl].
Qed.

Lemma evolves_dispatch (a : Action) : respects evolves (dispatch a).
Proof.
  intros c. apply (evolves_incl _ _ [a]); simpl; [reflexivity | apply incl_refl].
Qed.

Lemma evolves_flag (c : Component) :
  evolves c {| props := props c; state := state c; effects := effects c;
               thens := thens c; calls := calls c; updateScheduled := false |}.
Proof.
  apply (evolves_incl _ _ []); simpl; [symmetry; apply app_nil_r | apply incl_refl].
Qed.

Lemma evolves_componentDidUpdate (prevProps : Props) :
  respects evolves (componentDidUpdate prevProps).
Proof.
  apply respects_componentDidUpdate;
    [apply evolves_refl | apply evolves_trans
     | apply evolves_enter | apply evolves_dispatch].
Qed.

Lemma evolves_componentDidMount : respects evolves componentDidMount.
Proof.
  apply respects_componentDidMount;
    [apply evolves_refl | apply evolves_trans
     | apply evolves_enter | apply evolves_dispatch].
Qed.

Lemma evolves_rerender : respects evolves rerender.
Proof.
  apply respects_rerender;
    [apply evolves_refl | apply evolves_trans
     | apply evolves_enter | apply evolves_dispatch | apply evolves_flag].
Qed.

Lemma evolves_toggleModal (isOpen : bool) : respects evolves (toggleModal isOpen).
Proof.
  intros c. apply (evolves_incl _ _ []); simpl;
    [symmetry; apply app_nil_r | apply incl_refl].
Qed.

Lemma evolves_requestCancelJob : respects evolves requestCancelJob.
Proof.
  intros c. rewrite requestCancelJob_exec.
  destruct (job (props c)) as [| |j];
    try (apply (evolves_incl _ _ []); simpl;
         [symmetry; apply app_nil_r | apply incl_refl]).
  split; simpl.
  - eexists. reflexivity.
  - intros q k Hin. apply in_app_or in Hin. destruct Hin as [Hin | [Hnew | []]].
    + left. exact Hin.
    + right. injection Hnew as <- _. exists (job_id (fields j)).
      rewrite nth_error_app2, Nat.sub_diag by apply Nat.le_refl. reflexivity.
Qed.

Lemma evolves_handle (h : ClickHandler) : respects evolves (handle h).
Proof.
  destruct h; simpl; [apply evolves_requestCancelJob|].
  intros c. apply (evolves_incl _ _ []); simpl;
    [symmetry; apply app_nil_r | apply incl_refl].
Qed.

Lemma evolves_pressed (b : Button) : respects evolves (pressed b).
Proof.
  unfold Detail.pressed.
  destruct (disabled b); [intros c; apply evolves_refl|].
  destruct (onClick b); [apply evolves_handle | intros c; apply evolves_refl].
Qed.

Lemma evolves_settle (q : Promise) : respects evolves (settle q).
Proof.
  intros c. apply (evolves_incl _ _ []); simpl;
    [symmetry; apply app_nil_r | apply incl_filter].
Qed.

Lemma evolves_continue_all (ks : list (Promise * Continuation)) :
  respects evolves (continue_all ks).
Proof.
  induction ks as [|[q k] ks IH]; simpl; [intros c; apply evolves_refl|].
  apply (respects_bind _ evolves_trans); [| intros _; exact IH].
  destruct k. intros c. apply (evolves_incl _ _ []); simpl;
    [symmetry; apply app_nil_r | apply incl_refl].
Qed.

Lemma evolves_then_rerender {A} (m : M User Step A) :
  respects evolves m -> respects evolves (m ;; rerender).
Proof.
  intros Hm.
  apply (respects_bind _ evolves_trans);
    [exact Hm | intros _; apply evolves_rerender].
Qed.

Lemma step_evolves (i : Input User Step) (c c' : Component) :
  step i c = Some c' -> evolves c c'.
Proof.
  intros Hstep. destruct i as [next | n | h | isOpen | q | q];
    unfold Detail.step in Hstep.
  - injection Hstep as <-.
    apply (respects_bind _ evolves_trans).
    + intros c0. apply (evolves_incl _ _ []); simpl;
        [symmetry; apply app_nil_r | apply incl_refl].
    + intros prevProps. apply evolves_then_rerender.
      apply evolves_componentDidUpdate.
  - destruct (nth_error _ n) as [b|]; [| discriminate].
    injection Hstep as <-. apply evolves_then_rerender, evolves_pressed.
  - injection Hstep as <-. apply evolves_then_rerender, evolves_handle.
  - injection Hstep as <-. apply evolves_then_rerender, evolves_toggleModal.
  - destruct (waiting q c) as [|pk ks]; [discriminate|].
    injection Hstep as <-.
    apply (respects_bind _ evolves_trans); [apply evolves_settle | intros _].
    exact (evolves_then_rerender _ (evolves_continue_all (pk :: ks))).
  - destruct (waiting q c); [discriminate|].
    injection Hstep as <-. apply evolves_settle.
Qed.

Lemma thens_wf_evolves (c c' : Component) :
  thens_wf c -> evolves c c' -> thens_wf c'.
Proof.
  intros Hwf [[l He] Ht] q k Hin.
  destruct (Ht q k Hin) as [Hold | Hnew]; [| exact Hnew].
  destruct (Hwf q k Hold) as [id Hid]. exists id.
  rewrite He. apply nth_error_grows. exact Hid.
Qed.

Lemma run_thens_wf (inputs : list (Input User Step)) (c c' : Component) :
  thens_wf c -> run inputs c = Some c' -> thens_wf c'.
Proof.
  revert c. induction inputs as [|i rest IH]; intros c Hwf Hrun; simpl in Hrun.
  - injection Hrun as <-. exact Hwf.
  - destruct (step i c) as [c1|] eqn:Hstep; [| discriminate].
    apply (IH c1); [| exact Hrun].
    apply (thens_wf_evolves c); [exact Hwf | apply (step_evolves i), Hstep].
Qed.

Lemma mount_thens_wf (p : Props) : thens_wf (mount p).
Proof.
  apply (thens_wf_evolves (constructor p)).
  - intros q k [].
  - apply (respects_bind _ evolves_trans);
      [apply evolves_componentDidMount | intros _; apply evolves_rerender].
Qed.

Lemma reachable_thens_wf (c : Component) : reachable c -> thens_wf c.
Proof.
  intros (p & inputs & Hrun).
  apply (run_thens_wf inputs (mount p)); [apply mount_thens_wf | exact Hrun].
Qed.

(** *** The cancel request over time *)

Lemma waiting_in (q : Promise) (c : Component) :
  waiting q c <> [] -> exists k, In (q, k) (thens c).
Proof.
  intros Hne.
  destruct (waiting q c) as [|[q' k] ks] eqn:Hf; [congruence|].
  assert (Hin : In (q', k) (waiting q c)) by (rewrite Hf; left; reflexivity).
  unfold waiting in Hin. apply filter_In in Hin. destruct Hin as [Hin Heq].
  apply Nat.eqb_eq in Heq. simpl in Heq. subst q'. exists k. exact Hin.
Qed.

Lemma in_waiting (q : Promise) (k : Continuation) (c : Component) :
  In (q, k) (thens c) -> waiting q c <> [].
Proof.
  intros Hin Hnil.
  assert (Hf : In (q, k) (waiting q c)).
  { unfold waiting. apply filter_In. split; [exact Hin | apply Nat.eqb_refl]. }
  rewrite Hnil in Hf. exact Hf.
Qed.

Lemma step_reject (q : Promise) (c : Component) :
  waiting q c <> [] -> step (reject q) c = Some (exec (settle q) c).
Proof.
  intros Hne. unfold Detail.step. destruct (waiting q c); [congruence | reflexivity].
Qed.

Lemma dispatched_pressed (b : Button) (c : Component) :
  dispatched (pressed b) c
  = if disabled b then []
    else match onClick b with
         | Some this_requestCancelJob =>
             match job (props c) with
             | value j => [doRequestCancelJob (job_id (fields j))]
             | _ => []
             end
         | _ => []
         end.
Proof.
  unfold dispatched, Detail.pressed.
  destruct (disabled b); [apply skipn_length_self|].
  destruct (onClick b) as [[|]|]; try apply skipn_length_self.
  unfold Detail.handle. rewrite requestCancelJob_exec.
  destruct (job (props c)); suffix.
Qed.

(** C6. [canceling] is false in a new instance and after mounting.  In the
    life of a mounted instance it goes from false to true only at the
    resolution of a promise that a [doRequestCancelJob] call returned; once
    true it stays true whatever happens next, and every later render of a
    cancelable job shows the disabled button with the spinner label
    "Canceling Installation...", with no click handler. *)
Theorem canceling_flag_lifetime :
  (forall p : Props,
      canceling (state (constructor p)) = false
      /\ canceling (state (mount p)) = false)
  /\ (forall (c : Component) (i : Input User Step) (c' : Component),
        reachable c ->
        step i c = Some c' ->
        canceling (state c) = false ->
        canceling (state c') = true ->
        exists q id,
          i = resolve q
          /\ nth_error (effects c) q = Some (doRequestCancelJob id))
  /\ (forall (inputs : list (Input User Step)) (c c' : Component),
        run inputs c = Some c' ->
        canceling (state c) = true ->
        canceling (state c') = true
        /\ (cancelable (props c') ->
            exists b,
              getCancelBtn c' = ButtonE b
              /\ disabled b = true
              /\ onClick b = None
              /\ label b
                 = LabelWithSpinner "Canceling Installation..." "base" "x-small")).
Proof.
  split; [| split].
  - intros p. split; [reflexivity|].
    assert (H : same_canceling (constructor p) (mount p)).
    { apply (respects_bind _ same_canceling_trans);
        [apply same_canceling_componentDidMount
        | intros _; apply same_canceling_rerender]. }
    exact H.
  - intros c i c' Hreach Hstep Hoff Hon.
    destruct i as [next | n | h | isOpen | q | q];
      try (rewrite (step_same_canceling _ c c' Hstep) in Hon;
           [congruence | discriminate]).
    destruct (step_resolve_canceling q c c' Hstep) as [_ Hw].
    destruct (waiting_in q c Hw) as [k Hin].
    destruct (reachable_thens_wf c Hreach q k Hin) as [id Hid].
    exists q, id. split; [reflexivity | exact Hid].
  - intros inputs c c' Hrun Hon.
    pose proof (run_canceling_stays inputs c c' Hrun Hon) as Hon'.
    split; [exact Hon'|].
    intros Hc. eexists. split; [apply (getCancelBtn_busy c' Hc Hon')|].
    repeat split.
Qed.

(** C9. When the promise of a cancel request is rejected, the state, the
    props and the effect log are as before, so the page and the cancel
    control render as before and a click does what it did before.  So after
    a click on the enabled cancel button and the rejection of its request,
    [canceling] is still false, the same enabled button is shown, and a
    second click calls [doRequestCancelJob] again. *)
Theorem cancel_rejection_keeps_state :
  (forall (c : Component) (q : Promise) (c' : Component),
      step (reject q) c = Some c' ->
      state c' = state c
      /\ props c' = props c
      /\ effects c' = effects c
      /\ render c' = render c
      /\ getCancelBtn c' = getCancelBtn c
      /\ forall b, dispatched (pressed b) c' = dispatched (pressed b) c)
  /\ (forall (c : Component) (j : Obj Job),
        job (props c) = value j ->
        job_status (fields j) = STATUS_STARTED ->
        job_user_can_edit (fields j) = true ->
        canceling (state c) = false ->
        exists b c1 c2,
          getCancelBtn c = ButtonE b
          /\ disabled b = false
          /\ c1 = exec (pressed b ;; rerender) c
          /\ step (invoke this_requestCancelJob) c = Some c1
          /\ step (reject (length (effects c))) c1 = Some c2
          /\ canceling (state c2) = false
          /\ getCancelBtn c2 = ButtonE b
          /\ dispatched (pressed b) c2
             = [doRequestCancelJob (job_id (fields j))]).
Proof.
  assert (Hrej : forall c q c',
             step (reject q) c = Some c' ->
             state c' = state c /\ props c' = props c /\ effects c' = effects c
             /\ render c' = render c /\ getCancelBtn c' = getCancelBtn c
             /\ forall b, dispatched (pressed b) c' = dispatched (pressed b) c).
  { intros c q c' Hstep. unfold Detail.step in Hstep.
    destruct (waiting q c); [discriminate|]. injection Hstep as <-.
    repeat split. intros b. rewrite !dispatched_pressed. reflexivity. }
  split; [exact Hrej|].
  intros c j Ej Hs He Hc.
  pose proof (getCancelBtn_enabled c j Ej Hs He Hc) as Hb.
  set (c1 := exec (handle this_requestCancelJob ;; rerender) c).
  assert (Hthens : In (length (effects c), then_setCanceling) (thens c1)).
  { subst c1. rewrite exec_bind, rerender_exec.
    change (snd (handle this_requestCancelJob c)) with (exec requestCancelJob c).
    rewrite requestCancelJob_exec, Ej. simpl.
    destruct (updateScheduled c); simpl;
      apply in_or_app; right; left; reflexivity. }
  assert (Hc1 : state c1 = state c /\ props c1 = props c).
  { subst c1. rewrite exec_bind, rerender_exec.
    change (snd (handle this_requestCancelJob c)) with (exec requestCancelJob c).
    rewrite requestCancelJob_exec, Ej. simpl.
    destruct (updateScheduled c); split; reflexivity. }
  pose proof (step_reject _ c1 (in_waiting _ _ c1 Hthens)) as Hstep2.
  destruct (Hrej _ _ _ Hstep2) as (Hst & Hpr & _ & _ & Hbtn & Hdis).
  eexists. exists c1, (exec (settle (length (effects c))) c1).
  split; [exact Hb|]. split; [reflexivity|]. split; [reflexivity|].
  split; [reflexivity|]. split; [exact Hstep2|].
  destruct Hc1 as [Hst1 Hpr1].
  split; [rewrite Hst, Hst1; exact Hc|].
  split.
  - rewrite Hbtn. unfold Detail.getCancelBtn. rewrite Hst1, Hpr1.
    exact Hb.
  - rewrite Hdis, dispatched_pressed. simpl. rewrite Hpr1, Ej. reflexivity.
Qed.

(** *** What the lifecycle hooks dispatch *)

Ltac logs :=
  simpl; repeat rewrite <- app_assoc; simpl;
  rewrite ?skipn_length_app, ?skipn_length_self, ?app_nil_r; simpl;
  try reflexivity.

Lemma dispatched_fetchVersionIfMissing (c : Component) :
  dispatched fetchVersionIfMissing c
  = if truthy (product (props c)) && truthy (versionLabel (props c))
       && shouldFetchVersion {| va_product := product (props c);
                                va_version := version (props c);
                                va_versionLabel := versionLabel (props c) |}
    then match product (props c), versionLabel (props c) with
         | Some prod, value lbl => [doFetchVersion (product_id (fields prod)) lbl]
         | _, _ => []
         end
    else [].
Proof.
  unfold dispatched. unfold_methods.
  destruct (truthy (product (props c)) && truthy (versionLabel (props c))
            && shouldFetchVersion _); [| logs].
  destruct (product (props c)); [| logs].
  destruct (versionLabel (props c)); logs.
Qed.

Lemma dispatched_fetchJobIfMissing (c : Component) :
  dispatched fetchJobIfMissing c
  = if (job (props c) === undefined) && truthy (jobId (props c))
    then match jobId (props c) with
         | value id => [doFetchJob id]
         | _ => []
         end
    else [].
Proof.
  unfold dispatched. unfold_methods.
  destruct ((job (props c) === undefined) && truthy (jobId (props c)));
    [| logs].
  destruct (jobId (props c)); logs.
Qed.

Lemma fetchVersionIfMissing_exec (c : Component) :
  exec fetchVersionIfMissing c
  = {| props := props c; state := state c;
       effects := effects c ++ dispatched fetchVersionIfMissing c;
       thens := thens c; calls := calls c ++ [m_fetchVersionIfMissing];
       updateScheduled := updateScheduled c |}.
Proof.
  rewrite dispatched_fetchVersionIfMissing. unfold_methods.
  destruct (truthy (product (props c)) && truthy (versionLabel (props c))
            && shouldFetchVersion _); [| logs].
  destruct (product (props c)); [| logs].
  destruct (versionLabel (props c)); logs.
Qed.

Lemma fetchJobIfMissing_exec (c : Component) :
  exec fetchJobIfMissing c
  = {| props := props c; state := state c;
       effects := effects c ++ dispatched fetchJobIfMissing c;
       thens := thens c; calls := calls c ++ [m_fetchJobIfMissing];
       updateScheduled := updateScheduled c |}.
Proof.
  rewrite dispatched_fetchJobIfMissing. unfold_methods.
  destruct ((job (props c) === undefined) && truthy (jobId (props c)));
    [| logs].
  destruct (jobId (props c)); logs.
Qed.

Lemma componentDidMount_exec (c : Component) :
  exec componentDidMount c
  = {| props := props c; state := state c;
       effects := effects c ++ dispatched fetchVersionIfMissing c
                            ++ dispatched fetchJobIfMissing c;
       thens := thens c;
       calls := calls c ++ [m_componentDidMount; m_fetchVersionIfMissing;
                            m_fetchJobIfMissing];
       updateScheduled := updateScheduled c |}.
Proof.
  rewrite dispatched_fetchVersionIfMissing, dispatched_fetchJobIfMissing.
  unfold_methods.
  destruct (truthy (product (props c)) && truthy (versionLabel (props c))
            && shouldFetchVersion _);
    try destruct (product (props c)); try destruct (versionLabel (props c));
    simpl;
    destruct ((job (props c) === undefined) && truthy (jobId (props c)));
    try destruct (jobId (props c)); logs.
Qed.

Lemma componentDidUpdate_exec (prevProps : Props) (c : Component) :
  exec (componentDidUpdate prevProps) c
  = {| props := props c; state := state c;
       effects := effects c
                  ++ (if versionChanged (props c) prevProps
                      then dispatched fetchVersionIfMissing c else [])
                  ++ (if jobChanged (props c) prevProps
                      then dispatched fetchJobIfMissing c else []);
       thens := thens c;
       calls := calls c ++ m_componentDidUpdate
                  :: (if versionChanged (props c) prevProps
                      then [m_fetchVersionIfMissing] else [])
                  ++ (if jobChanged (props c) prevProps
                      then [m_fetchJobIfMissing] else []);
       updateScheduled := updateScheduled c |}.
Proof.
  rewrite dispatched_fetchVersionIfMissing, dispatched_fetchJobIfMissing.
  unfold_methods.
  destruct (versionChanged (props c) prevProps);
    destruct (jobChanged (props c) prevProps); simpl;
    try destruct (truthy (product (props c)) && truthy (versionLabel (props c))
                  && shouldFetchVersion _);
    try destruct (product (props c)); try destruct (versionLabel (props c));
    simpl;
    try destruct ((job (props c) === undefined) && truthy (jobId (props c)));
    try destruct (jobId (props c)); logs.
Qed.

(** C4. [componentDidMount] runs [fetchVersionIfMissing] once and
    [fetchJobIfMissing] once: each is entered once, and what the hook
    dispatches is what the first dispatches followed by what the second
    dispatches.  [componentDidUpdate] runs [fetchVersionIfMissing] (once)
    exactly when one of product, version, versionLabel differs by [!==] from
    its value in the previous props, and [fetchJobIfMissing] (once) exactly
    when one of job, jobId does: it dispatches what the operations of the
    changed groups dispatch, in that order, and nothing when neither group
    differs.  Neither hook touches the props, the state or the waiting
    callbacks. *)
Theorem lifecycle_runs_ensure_operations :
  (forall c : Component,
      runs_of m_fetchVersionIfMissing (entered componentDidMount c) = 1
      /\ runs_of m_fetchJobIfMissing (entered componentDidMount c) = 1
      /\ dispatched componentDidMount c
         = dispatched fetchVersionIfMissing c ++ dispatched fetchJobIfMissing c
      /\ props (exec componentDidMount c) = props c
      /\ state (exec componentDidMount c) = state c
      /\ thens (exec componentDidMount c) = thens c)
  /\ (forall (prevProps : Props) (c : Component),
        let ran := entered (componentDidUpdate prevProps) c in
        let sent := dispatched (componentDidUpdate prevProps) c in
        (version_group_differs (props c) prevProps
         <-> runs_of m_fetchVersionIfMissing ran = 1)
        /\ (~ version_group_differs (props c) prevProps
            <-> runs_of m_fetchVersionIfMissing ran = 0)
        /\ (job_group_differs (props c) prevProps
            <-> runs_of m_fetchJobIfMissing ran = 1)
        /\ (~ job_group_differs (props c) prevProps
            <-> runs_of m_fetchJobIfMissing ran = 0)
        /\ (version_group_differs (props c) prevProps ->
            job_group_differs (props c) prevProps ->
            sent = dispatched fetchVersionIfMissing c
                   ++ dispatched fetchJobIfMissing c)
        /\ (version_group_differs (props c) prevProps ->
            ~ job_group_differs (props c) prevProps ->
            sent = dispatched fetchVersionIfMissing c)
        /\ (~ version_group_differs (props c) prevProps ->
            job_group_differs (props c) prevProps ->
            sent = dispatched fetchJobIfMissing c)
        /\ (~ version_group_differs (props c) prevProps ->
            ~ job_group_differs (props c) prevProps ->
            sent = [])
        /\ props (exec (componentDidUpdate prevProps) c) = props c
        /\ state (exec (componentDidUpdate prevProps) c) = state c
        /\ thens (exec (componentDidUpdate prevProps) c) = thens c).
Proof.
  split.
  - intros c. rewrite componentDidMount_entered.
    split; [reflexivity|]. split; [reflexivity|].
    unfold dispatched at 1. rewrite componentDidMount_exec. simpl.
    split; [apply skipn_length_app | repeat split].
  - intros prevProps c ran sent. subst ran sent.
    assert (Hsent : dispatched (componentDidUpdate prevProps) c
                    = (if versionChanged (props c) prevProps
                       then dispatched fetchVersionIfMissing c else [])
                      ++ (if jobChanged (props c) prevProps
                          then dispatched fetchJobIfMissing c else [])).
    { unfold dispatched at 1. rewrite componentDidUpdate_exec. simpl.
      apply skipn_length_app. }
    rewrite Hsent, componentDidUpdate_entered, componentDidUpdate_exec.
    rewrite <- versionChanged_differs, <- jobChanged_differs.
    destruct (versionChanged (props c) prevProps) eqn:Hv;
      destruct (jobChanged (props c) prevProps) eqn:Hj;
      unfold runs_of; simpl; rewrite ?app_nil_r;
      repeat split; intros; try congruence; try discriminate.
Qed.

Lemma dispatched_fetchVersionIfMissing_length (c : Component) :
  length (dispatched fetchVersionIfMissing c) <= 1.
Proof.
  rewrite dispatched_fetchVersionIfMissing.
  destruct (truthy (product (props c)) && truthy (versionLabel (props c))
            && shouldFetchVersion _); simpl; [| lia].
  destruct (product (props c)); simpl; [| lia].
  destruct (versionLabel (props c)); simpl; lia.
Qed.

Lemma dispatched_fetchJobIfMissing_length (c : Component) :
  length (dispatched fetchJobIfMissing c) <= 1.
Proof.
  rewrite dispatched_fetchJobIfMissing.
  destruct ((job (props c) === undefined) && truthy (jobId (props c)));
    simpl; [| lia].
  destruct (jobId (props c)); simpl; lia.
Qed.

(** X1. What [componentDidMount] dispatches is what [fetchVersionIfMissing]
    dispatches followed by what [fetchJobIfMissing] dispatches;
    [componentDidUpdate] dispatches the same two parts, each only if its
    group of props changed.  Either hook calls at most two action
    creators, the version fetch before the job fetch. *)
Theorem lifecycle_dispatch_order :
  (forall c : Component,
      dispatched componentDidMount c
      = dispatched fetchVersionIfMissing c ++ dispatched fetchJobIfMissing c)
  /\ (forall (prevProps : Props) (c : Component),
        dispatched (componentDidUpdate prevProps) c
        = (if versionChanged (props c) prevProps
           then dispatched fetchVersionIfMissing c else [])
          ++ (if jobChanged (props c) prevProps
              then dispatched fetchJobIfMissing c else []))
  /\ (forall c : Component, length (dispatched componentDidMount c) <= 2)
  /\ (forall (prevProps : Props) (c : Component),
        length (dispatched (componentDidUpdate prevProps) c) <= 2).
Proof.
  assert (Hm : forall c : Component,
             dispatched componentDidMount c
             = dispatched fetchVersionIfMissing c ++ dispatched fetchJobIfMissing c).
  { intros c. unfold dispatched at 1. rewrite componentDidMount_exec. simpl.
    apply skipn_length_app. }
  assert (Hu : forall (prevProps : Props) (c : Component),
             dispatched (componentDidUpdate prevProps) c
             = (if versionChanged (props c) prevProps
                then dispatched fetchVersionIfMissing c else [])
               ++ (if jobChanged (props c) prevProps
                   then dispatched fetchJobIfMissing c else [])).
  { intros prevProps c. unfold dispatched at 1.
    rewrite componentDidUpdate_exec. simpl. apply skipn_length_app. }
  split; [exact Hm|]. split; [exact Hu|]. split.
  - intros c. rewrite Hm, length_app.
    pose proof (dispatched_fetchVersionIfMissing_length c).
    pose proof (dispatched_fetchJobIfMissing_length c). lia.
  - intros prevProps c. rewrite Hu, length_app.
    pose proof (dispatched_fetchVersionIfMissing_length c).
    pose proof (dispatched_fetchJobIfMissing_length c).
    destruct (versionChanged (props c) prevProps);
      destruct (jobChanged (props c) prevProps); simpl; lia.
Qed.

(** X2. A mounted instance has both state fields false, the props it was
    built with, no callback waiting and no re-render pending; all it has
    dispatched is the two fetches of [componentDidMount]. *)
Theorem mount_initial (p : Props) :
  state (mount p) = {| modalOpen := false; canceling := false |}
  /\ props (mount p) = p
  /\ thens (mount p) = []
  /\ updateScheduled (mount p) = false
  /\ effects (mount p)
     = dispatched fetchVersionIfMissing (constructor p)
       ++ dispatched fetchJobIfMissing (constructor p).
Proof.
  unfold Detail.mount. rewrite exec_bind, rerender_exec.
  change (snd (componentDidMount (constructor p)))
    with (exec componentDidMount (constructor p)).
  rewrite componentDidMount_exec. simpl. repeat split.
Qed.

Lemma step_receiveProps (next : Props) (c c' : Component) :
  step (receiveProps next) c = Some c' ->
  props c' = next /\ state c' = state c /\ thens c' = thens c
  /\ effects c'
     = effects c
       ++ (if versionChanged next (props c)
           then dispatched fetchVersionIfMissing (exec (set_props next) c)
           else [])
       ++ (if jobChanged next (props c)
           then dispatched fetchJobIfMissing (exec (set_props next) c)
           else []).
Proof.
  unfold Detail.step. intros Hstep. injection Hstep as <-.
  rewrite exec_bind. simpl fst.
  change (snd (set_props next c)) with (exec (set_props next) c).
  rewrite exec_bind, rerender_exec.
  match goal with |- context [snd (componentDidUpdate ?q ?x)] =>
    change (snd (componentDidUpdate q x)) with (exec (componentDidUpdate q) x)
  end.
  rewrite componentDidUpdate_exec. simpl.
  destruct (updateScheduled c); simpl; repeat split.
Qed.

(** X3. When new props arrive, the instance takes them, keeps its state and
    its waiting callbacks, and every action creator it calls is a fetch
    keyed by the new props: [doFetchVersion] with the new product's id and
    the new label, or [doFetchJob] with the new job id while the new job is
    [undefined].  It never requests a cancel. *)
Theorem update_fetches_keyed_by_new_props (next : Props) (c c' : Component) :
  step (receiveProps next) c = Some c' ->
  props c' = next /\ state c' = state c /\ thens c' = thens c
  /\ exists l,
       effects c' = effects c ++ l
       /\ forall a, In a l ->
            (exists prod lbl,
                a = doFetchVersion (product_id (fields prod)) lbl
                /\ product next = Some prod /\ versionLabel next = value lbl)
            \/ (exists id,
                   a = doFetchJob id
                   /\ jobId next = value id /\ job next = undefined).
Proof.
  intros Hstep.
  destruct (step_receiveProps next c c' Hstep) as (Hp & Hs & Ht & He).
  split; [exact Hp|]. split; [exact Hs|]. split; [exact Ht|].
  eexists. split; [exact He|].
  intros a Hin. apply in_app_or in Hin. destruct Hin as [Hin | Hin].
  - left. destruct (versionChanged next (props c)); [| destruct Hin].
    rewrite dispatched_fetchVersionIfMissing in Hin. simpl in Hin.
    destruct (truthy (product next) && truthy (versionLabel next)
              && shouldFetchVersion _); [| destruct Hin].
    destruct (product next) as [prod|]; [| destruct Hin].
    destruct (versionLabel next) as [| |lbl]; try (exfalso; exact Hin).
    destruct Hin as [<- | []]. exists prod, lbl. repeat split.
  - right. destruct (jobChanged next (props c)); [| destruct Hin].
    rewrite dispatched_fetchJobIfMissing in Hin. simpl in Hin.
    destruct (job next) as [| |j]; simpl in Hin; try (exfalso; exact Hin).
    destruct (truthy (jobId next)); [| destruct Hin].
    destruct (jobId next) as [| |id]; try (exfalso; exact Hin).
    destruct Hin as [<- | []]. exists id. repeat split.
Qed.

(** X4. Props that arrive a second time dispatch nothing, whether or not
    the data they asked for has come: no fetch is repeated by a re-render
    with the same props. *)
Theorem same_props_never_refetch (next : Props) (c c1 c2 : Component) :
  step (receiveProps next) c = Some c1 ->
  step (receiveProps next) c1 = Some c2 ->
  effects c2 = effects c1 /\ state c2 = state c1 /\ props c2 = props c1.
Proof.
  intros H1 H2.
  destruct (step_receiveProps next c c1 H1) as (Hp1 & _).
  destruct (step_receiveProps next c1 c2 H2) as (Hp2 & Hs2 & _ & He2).
  rewrite Hp1 in He2.
  rewrite versionChanged_same, jobChanged_same, app_nil_r in He2.
  split; [exact He2|]. split; [exact Hs2 | congruence].
Qed.

(** *** More on the cancel request *)

Lemma render_ext (c c' : Component) :
  props c' = props c -> state c' = state c -> render c' = render c.
Proof.
  intros Hp Hs. unfold Detail.render, Detail.getCancelBtn.
  rewrite Hp, Hs. reflexivity.
Qed.

Lemma getCancelBtn_ext (c c' : Component) :
  props c' = props c -> state c' = state c -> getCancelBtn c' = getCancelBtn c.
Proof.
  intros Hp Hs. unfold Detail.getCancelBtn. rewrite Hp, Hs. reflexivity.
Qed.

(** X5. With a job in the props, [requestCancelJob] calls
    [doRequestCancelJob] with the job's id and registers one callback on the
    promise it got, whatever the job's status, the viewer's right to edit
    and the [canceling] flag: the handler checks none of them.  It leaves
    the state and the props alone. *)
Theorem requestCancelJob_with_job (c : Component) (j : Obj Job) :
  job (props c) = value j ->
  dispatched requestCancelJob c = [doRequestCancelJob (job_id (fields j))]
  /\ thens (exec requestCancelJob c)
     = thens c ++ [(length (effects c), then_setCanceling)]
  /\ nth_error (effects (exec requestCancelJob c)) (length (effects c))
     = Some (doRequestCancelJob (job_id (fields j)))
  /\ state (exec requestCancelJob c) = state c
  /\ props (exec requestCancelJob c) = props c.
Proof.
  intros Ej. unfold dispatched. rewrite requestCancelJob_exec, Ej. simpl.
  split; [apply skipn_length_app|]. split; [reflexivity|].
  split; [| split; reflexivity].
  rewrite nth_error_app2, Nat.sub_diag by apply Nat.le_refl. reflexivity.
Qed.

Lemma click_cancel_step (c : Component) (j : Obj Job) :
  job (props c) = value j ->
  job_status (fields j) = STATUS_STARTED ->
  job_user_can_edit (fields j) = true ->
  canceling (state c) = false ->
  is_layout (render c) = true ->
  exists c1,
    step (click 0) c = Some c1
    /\ props c1 = props c /\ state c1 = state c
    /\ effects c1 = effects c ++ [doRequestCancelJob (job_id (fields j))]
    /\ thens c1 = thens c ++ [(length (effects c), then_setCanceling)].
Proof.
  intros Ej Hs He Hc Hl. unfold Detail.step.
  rewrite (layout_buttons c Hl), (getCancelBtn_enabled c j Ej Hs He Hc). simpl.
  eexists. split; [reflexivity|].
  rewrite exec_bind, rerender_exec.
  change (snd (pressed ?b c)) with (exec (pressed b) c).
  unfold Detail.pressed. simpl.
  rewrite requestCancelJob_exec, Ej. simpl.
  destruct (updateScheduled c); repeat split.
Qed.

(** X6. The cancel button stays enabled until the request resolves: a
    second click before that calls [doRequestCancelJob] a second time, and
    both promises are then waited on. *)
Theorem cancel_double_click (c : Component) (j : Obj Job) :
  job (props c) = value j ->
  job_status (fields j) = STATUS_STARTED ->
  job_user_can_edit (fields j) = true ->
  canceling (state c) = false ->
  is_layout (render c) = true ->
  exists c2,
    run [click 0; click 0] c = Some c2
    /\ effects c2
       = effects c ++ [doRequestCancelJob (job_id (fields j));
                       doRequestCancelJob (job_id (fields j))]
    /\ canceling (state c2) = false
    /\ waiting (length (effects c)) c2 <> []
    /\ waiting (S (length (effects c))) c2 <> [].
Proof.
  intros Ej Hs He Hc Hl.
  destruct (click_cancel_step c j Ej Hs He Hc Hl)
    as (c1 & Hstep1 & Hp1 & Hs1 & He1 & Ht1).
  assert (Ej1 : job (props c1) = value j) by (rewrite Hp1; exact Ej).
  assert (Hc1 : canceling (state c1) = false) by (rewrite Hs1; exact Hc).
  assert (Hl1 : is_layout (render c1) = true)
    by (rewrite (render_ext c c1 Hp1 Hs1); exact Hl).
  destruct (click_cancel_step c1 j Ej1 Hs He Hc1 Hl1)
    as (c2 & Hstep2 & Hp2 & Hs2 & He2 & Ht2).
  exists c2. cbn [Detail.run]. rewrite Hstep1, Hstep2.
  split; [reflexivity|].
  split; [rewrite He2, He1, <- app_assoc; reflexivity|].
  split; [rewrite Hs2; exact Hc1|].
  rewrite He1, length_app, Nat.add_1_r in Ht2. simpl in Ht2.
  split.
  - apply (in_waiting _ then_setCanceling). rewrite Ht2, Ht1.
    apply in_or_app. left. apply in_or_app. right. left. reflexivity.
  - apply (in_waiting _ then_setCanceling). rewrite Ht2.
    apply in_or_app. right. left. reflexivity.
Qed.

(** X7. Once [canceling] is true, a click on the cancel control of the page
    does nothing: no action creator is called, no callback is registered,
    state and props stay. *)
Theorem busy_button_click_inert (c : Component) :
  cancelable (props c) ->
  canceling (state c) = true ->
  is_layout (render c) = true ->
  exists c',
    step (click 0) c = Some c'
    /\ effects c' = effects c /\ thens c' = thens c
    /\ state c' = state c /\ props c' = props c.
Proof.
  intros Hcan Hc Hl. unfold Detail.step.
  rewrite (layout_buttons c Hl), (getCancelBtn_busy c Hcan Hc). simpl.
  eexists. split; [reflexivity|].
  rewrite exec_bind, rerender_exec. unfold Detail.pressed. simpl.
  destruct (updateScheduled c); repeat split.
Qed.

Lemma continue_all_frame (ks : list (Promise * Continuation)) (c : Component) :
  props (exec (continue_all ks) c) = props c
  /\ effects (exec (continue_all ks) c) = effects c
  /\ thens (exec (continue_all ks) c) = thens c
  /\ modalOpen (state (exec (continue_all ks) c)) = modalOpen (state c).
Proof.
  revert c. induction ks as [|[q k] ks IH]; intros c; [repeat split|].
  simpl. rewrite exec_bind.
  destruct (IH (snd (Detail.continue k c))) as (Hp & He & Ht & Hm).
  unfold exec in *. rewrite Hp, He, Ht, Hm. destruct k. repeat split.
Qed.

Lemma step_resolve_frame (q : Promise) (c c' : Component) :
  step (resolve q) c = Some c' ->
  modalOpen (state c') = modalOpen (state c)
  /\ effects c' = effects c
  /\ props c' = props c.
Proof.
  intros Hstep.
  unfold Detail.step in Hstep.
  destruct (waiting q c) as [|pk ks]; [discriminate|].
  injection Hstep as <-.
  rewrite exec_bind, exec_bind, rerender_exec.
  pose proof (continue_all_frame (pk :: ks) (snd (settle q c))) as Hfr.
  match goal with |- context [updateScheduled ?x] => set (c1 := x) in * end.
  change (exec (continue_all (pk :: ks)) (snd (settle q c))) with c1 in Hfr.
  destruct Hfr as (Hp & He & Ht & Hm).
  destruct (updateScheduled c1); simpl; rewrite Hp, He, Hm; repeat split.
Qed.

(** X8. The resolution of a cancel request only sets [canceling]: it calls
    no action creator, keeps the props and leaves the share modal open or
    closed as it was. *)
Theorem resolve_only_sets_canceling (q : Promise) (c c' : Component) :
  step (resolve q) c = Some c' ->
  canceling (state c') = true
  /\ modalOpen (state c') = modalOpen (state c)
  /\ effects c' = effects c
  /\ props c' = props c.
Proof.
  intros Hstep.
  split; [apply (step_resolve_canceling q c c' Hstep)|].
  exact (step_resolve_frame q c c' Hstep).
Qed.

(** X9. In the life of a mounted instance only cancel requests are waited
    on: a promise with a callback registered is the promise of a
    [doRequestCancelJob] call, so the outcome of a [doFetchVersion] or
    [doFetchJob] call can neither resolve nor reject into the instance. *)
Theorem only_cancel_requests_awaited (c : Component) (q : Promise) :
  reachable c ->
  (waiting q c <> [] ->
   exists id, nth_error (effects c) q = Some (doRequestCancelJob id))
  /\ ((exists a, nth_error (effects c) q = Some a
                 /\ forall id, a <> doRequestCancelJob id) ->
      step (resolve q) c = None /\ step (reject q) c = None).
Proof.
  intros Hreach.
  assert (Hw : waiting q c <> [] ->
               exists id, nth_error (effects c) q = Some (doRequestCancelJob id)).
  { intros Hne. destruct (waiting_in q c Hne) as [k Hin].
    exact (reachable_thens_wf c Hreach q k Hin). }
  split; [exact Hw|].
  intros (a & Ha & Hnot). unfold Detail.step.
  destruct (waiting q c) as [|pk ks] eqn:Ew; [split; reflexivity|].
  exfalso. destruct Hw as [id Hid]; [discriminate|].
  rewrite Ha in Hid. injection Hid as ->. exact (Hnot id eq_refl).
Qed.

(** *** The share modal *)

Lemma rerender_frame (c : Component) :
  state (exec rerender c) = state c /\ props (exec rerender c) = props c
  /\ effects (exec rerender c) = effects c /\ thens (exec rerender c) = thens c
  /\ updateScheduled (exec rerender c) = false.
Proof.
  rewrite rerender_exec.
  destruct (updateScheduled c) eqn:E; simpl; repeat split; exact E.
Qed.

(** X10. [toggleModal] sets [modalOpen] to its argument and nothing else:
    [canceling], the props and the waiting callbacks stay, and the re-render
    it causes calls no action creator. *)
Theorem modal_toggle_sets_modalOpen (isOpen : bool) (c : Component) :
  exists c',
    step (modal_toggle isOpen) c = Some c'
    /\ state c' = {| modalOpen := isOpen; canceling := canceling (state c) |}
    /\ effects c' = effects c /\ thens c' = thens c /\ props c' = props c.
Proof.
  unfold Detail.step. eexists. split; [reflexivity|].
  rewrite exec_bind.
  match goal with |- context [exec rerender ?x] =>
    destruct (rerender_frame x) as (Hs & Hp & He & Ht & _)
  end.
  rewrite Hs, Hp, He, Ht. repeat split.
Qed.


Ltac find_node := simpl; repeat (try (left; reflexivity); right).




Lemma requestCancelJob_state (c : Component) :
  state (snd (requestCancelJob c)) = state c.
Proof.
  change (state (exec requestCancelJob c) = state c).
  rewrite requestCancelJob_exec. destruct (job (props c)); reflexivity.
Qed.

(** X12. [modalOpen] changes only when [toggleModal] or [openModal] runs:
    new props, the cancel button, and the resolution or rejection of a
    cancel request leave it as it was. *)
Theorem modalOpen_changes_only_by_modal_handlers
        (i : Input User Step) (c c' : Component) :
  step i c = Some c' ->
  modalOpen (state c') <> modalOpen (state c) ->
  (exists isOpen, i = modal_toggle isOpen)
  \/ i = invoke this_openModal
  \/ (exists n b, i = click n
                  /\ nth_error (buttons (render c)) n = Some b
                  /\ disabled b = false
                  /\ onClick b = Some this_openModal).
Proof.
  intros Hstep Hdiff.
  destruct i as [next | n | h | isOpen | q | q].
  - exfalso. apply Hdiff.
    destruct (step_receiveProps next c c' Hstep) as (_ & Hs & _).
    rewrite Hs. reflexivity.
  - unfold Detail.step in Hstep.
    destruct (nth_error (buttons (render c)) n) as [b|] eqn:Hn; [| discriminate].
    injection Hstep as <-.
    assert (Hsame : onClick b <> Some this_openModal \/ disabled b = true ->
                    state (exec (pressed b ;; rerender) c) = state c).
    { intros Hcase. rewrite exec_bind.
      match goal with |- context [exec rerender ?x] =>
        destruct (rerender_frame x) as (Hs & _)
      end.
      rewrite Hs. unfold Detail.pressed.
      destruct (disabled b); [reflexivity|].
      destruct (onClick b) as [[|]|]; try reflexivity.
      - exact (requestCancelJob_state c).
      - destruct Hcase as [Hcase | Hcase]; [congruence | discriminate]. }
    destruct (disabled b) eqn:Hd.
    { exfalso. apply Hdiff. rewrite Hsame; auto. }
    destruct (onClick b) as [[|]|] eqn:Ho.
    + exfalso. apply Hdiff. rewrite Hsame; [reflexivity | left; discriminate].
    + right. right. exists n, b. repeat split; assumption.
    + exfalso. apply Hdiff. rewrite Hsame; [reflexivity | left; discriminate].
  - destruct h; [| right; left; reflexivity].
    exfalso. apply Hdiff. unfold Detail.step in Hstep. injection Hstep as <-.
    rewrite exec_bind.
    match goal with |- context [exec rerender ?x] =>
      destruct (rerender_frame x) as (Hs & _)
    end.
    rewrite Hs. exact (f_equal modalOpen (requestCancelJob_state c)).
  - left. exists isOpen. reflexivity.
  - exfalso. apply Hdiff. apply (step_resolve_frame q c c' Hstep).
  - exfalso. apply Hdiff. unfold Detail.step in Hstep.
    destruct (waiting q c); [discriminate|]. injection Hstep as <-. reflexivity.
Qed.

(** *** More on rendering *)

(** X13. [render] has three outcomes.  Whenever [getLoadingOrNotFound] gives
    a node, that node is the page, even with everything loaded; when it
    gives [false], the page is the full layout if product, version, plan and
    job are all there, and the not-found view if one is missing. *)
Theorem render_classification (c : Component) :
  (forall node,
      getLoadingOrNotFound (loading_args (props c)) = Some node ->
      render c = external node)
  /\ (getLoadingOrNotFound (loading_args (props c)) = None ->
      all_loaded (props c) -> is_layout (render c) = true)
  /\ (getLoadingOrNotFound (loading_args (props c)) = None ->
      ~ all_loaded (props c) -> render c = ProductNotFound).
Proof.
  unfold Detail.render, all_loaded. cbv zeta. split; [| split].
  - intros node Hn. rewrite Hn. reflexivity.
  - intros Hn (product_ & version_ & plan_ & job_ & Ep & Ev & Epl & Ej).
    rewrite Hn, Ep, Ev, Epl, Ej. reflexivity.
  - intros Hn Hmiss. rewrite Hn.
    destruct (product (props c)) as [product_|]; [| reflexivity].
    destruct (version (props c)) as [version_|]; [| reflexivity].
    destruct (plan (props c)) as [plan_|]; [| reflexivity].
    destruct (job (props c)) as [| |job_]; try reflexivity.
    exfalso. apply Hmiss. exists product_, version_, plan_, job_. repeat split.
Qed.

(** X14. The page depends on the user only through whether there is one:
    two instances with the same state and the same other props render the
    same page as soon as both have a user or both have none. *)
Theorem render_depends_on_login_only (c1 c2 : Component) :
  state c1 = state c2 ->
  product (props c1) = product (props c2) ->
  version (props c1) = version (props c2) ->
  versionLabel (props c1) = versionLabel (props c2) ->
  plan (props c1) = plan (props c2) ->
  job (props c1) = job (props c2) ->
  jobId (props c1) = jobId (props c2) ->
  (user (props c1) = None <-> user (props c2) = None) ->
  render c1 = render c2.
Proof.
  intros Hs Hp Hv Hl Hpl Hj Hi Hu.
  assert (Hargs : loading_args (props c1) = loading_args (props c2)).
  { unfold Detail.loading_args. rewrite Hp, Hv, Hl, Hpl, Hj, Hi.
    destruct (user (props c1)) as [u1|]; destruct (user (props c2)) as [u2|];
      try reflexivity; exfalso.
    - assert (H : Some u1 = None) by (apply Hu; reflexivity). discriminate H.
    - assert (H : Some u2 = None) by (apply Hu; reflexivity). discriminate H. }
  unfold Detail.render, Detail.getCancelBtn. cbv zeta.
  rewrite Hargs, Hs, Hp, Hv, Hpl, Hj. reflexivity.
Qed.

(** X15. In the full layout the document title is
    "Installation | <plan title> | <product title> | MetaDeploy", and the
    call-to-action button gets the job, the link that [routes.plan_detail]
    builds from the product slug, the version label and the plan slug, in
    that order, and the [canceling] flag. *)
Theorem layout_title_and_link (c : Component) :
  is_layout (render c) = true ->
  exists product_ version_ plan_ job_,
    product (props c) = Some product_ /\ version (props c) = Some version_
    /\ plan (props c) = Some plan_ /\ job (props c) = value job_
    /\ (exists children,
          render c
          = DocumentTitle
              ("Installation | " ++ plan_title (fields plan_) ++ " | "
               ++ product_title (fields product_) ++ " | MetaDeploy")%string
              children)
    /\ In (CtaButton job_
             (plan_detail (product_slug (fields product_))
                          (version_label (fields version_))
                          (plan_slug (fields plan_)))
             (canceling (state c)))
          (subnodes (render c)).
Proof.
  unfold Detail.render. cbv zeta.
  destruct (getLoadingOrNotFound _); [discriminate|].
  destruct (product (props c)) as [product_|]; [| discriminate].
  destruct (version (props c)) as [version_|]; [| discriminate].
  destruct (plan (props c)) as [plan_|]; [| discriminate].
  destruct (job (props c)) as [| |job_]; try discriminate.
  intros _. exists product_, version_, plan_, job_.
  repeat (split; [reflexivity|]). split.
  - eexists. reflexivity.
  - destruct (getCancelBtn_cases c) as [E | [b E]]; rewrite E; find_node.
Qed.

End Properties.

(** ** The model on the sample instance *)

Import Sample.

(** Mounting with nothing fetched asks for the version and for the job. *)
Example mount_unfetched :
  effects (mount shouldFetch unfetched_props)
  = [doFetchVersion "p1" "1.0.0"; doFetchJob "job-1"].
Proof. reflexivity. Qed.

(** A job known to be absent is not asked for again. *)
Example mount_job_not_found :
  effects (mount shouldFetch job_not_found_props) = [].
Proof. reflexivity. Qed.

(** Click on cancel, then the request resolves: the flag is set. *)
Example click_then_resolve :
  (canceling (state (after [click 0; resolve 0])),
   effects (after [click 0; resolve 0]))
  = (true, [doRequestCancelJob "job-1"]).
Proof. reflexivity. Qed.

(** Click on cancel, the request is rejected, click again. *)
Example click_reject_click :
  (canceling (state (after [click 0; reject 0; click 0])),
   effects (after [click 0; reject 0; click 0]))
  = (false, [doRequestCancelJob "job-1"; doRequestCancelJob "job-1"]).
Proof. reflexivity. Qed.

(** Once canceling, the button is disabled: a click does nothing. *)
Example click_resolve_click :
  effects (after [click 0; resolve 0; click 0]) = [doRequestCancelJob "job-1"].
Proof. reflexivity. Qed.

(** The share button is the second button of the page; it opens the modal. *)
Example click_share :
  (modalOpen (state (after [click 1])), effects (after [click 1])) = (true, []).
Proof. reflexivity. Qed.

(** With an empty label nothing is fetched, whatever [shouldFetchVersion]
    says: the empty string is taken for false. *)
Example empty_label_not_fetched :
  dispatched (fetchVersionIfMissing (fun _ => true))
    (constructor {| user := Some tt; product := Some a_product; version := None;
                    versionLabel := value ""; plan := @None (Obj (Plan string));
                    job := undefined; jobId := value "" |})
  = []
  /\ dispatched fetchJobIfMissing
       (constructor {| user := Some tt; product := Some a_product; version := None;
                       versionLabel := value ""; plan := @None (Obj (Plan string));
                       job := undefined; jobId := value "" |})
     = [].
Proof. split; reflexivity. Qed.

Lemma render_layout_only_when_loaded_witness :
  all_loaded loaded_props
  /\ is_layout (render started loadingOrNotFound plan_url
                       (constructor no_product_props)) = false.
Proof.
  split.
  - apply (proj1 (render_layout_only_when_loaded
                    started loadingOrNotFound plan_url (constructor loaded_props))).
    reflexivity.
  - apply (proj2 (render_layout_only_when_loaded
                    started loadingOrNotFound plan_url (constructor no_product_props))).
    reflexivity.
Defined.

Lemma fetchVersionIfMissing_dispatches_witness :
  (exists prod lbl,
      product unfetched_props = Some prod /\ versionLabel unfetched_props = value lbl
      /\ dispatched (fetchVersionIfMissing shouldFetch) (constructor unfetched_props)
         = [doFetchVersion (product_id (fields prod)) lbl])
  /\ dispatched (fetchVersionIfMissing shouldFetch) (constructor loaded_props) = [].
Proof.
  split.
  - apply (proj1 (fetchVersionIfMissing_dispatches shouldFetch (constructor unfetched_props))).
    repeat split.
  - apply (proj2 (fetchVersionIfMissing_dispatches shouldFetch (constructor loaded_props))).
    intros (_ & _ & H). discriminate H.
Defined.

Lemma fetchJobIfMissing_dispatches_witness :
  (exists id, jobId unfetched_props = value id
              /\ dispatched fetchJobIfMissing (constructor unfetched_props)
                 = [doFetchJob id])
  /\ dispatched fetchJobIfMissing (constructor job_not_found_props) = [].
Proof.
  split.
  - apply (proj1 (fetchJobIfMissing_dispatches (constructor unfetched_props))).
    split; reflexivity.
  - apply (proj1 (proj2 (proj2 (fetchJobIfMissing_dispatches
                                  (constructor job_not_found_props))))).
    reflexivity.
Defined.

Lemma lifecycle_runs_ensure_operations_witness :
  runs_of m_fetchVersionIfMissing
    (entered (componentDidUpdate shouldFetch loaded_props)
             (constructor unfetched_props)) = 1
  /\ dispatched (componentDidUpdate shouldFetch loaded_props)
       (constructor unfetched_props)
     = [doFetchVersion "p1" "1.0.0"; doFetchJob "job-1"]
  /\ dispatched (componentDidUpdate shouldFetch version_unfetched_props)
       (constructor unfetched_props)
     = [doFetchJob "job-1"]
  /\ dispatched (componentDidUpdate shouldFetch loaded_props)
       (constructor loaded_props) = [].
Proof.
  destruct (proj2 (lifecycle_runs_ensure_operations shouldFetch)
              loaded_props (constructor unfetched_props))
    as (Hv & _ & _ & _ & Hboth & _).
  destruct (proj2 (lifecycle_runs_ensure_operations shouldFetch)
              version_unfetched_props (constructor unfetched_props))
    as (_ & _ & _ & _ & _ & _ & Hjob & _).
  destruct (proj2 (lifecycle_runs_ensure_operations shouldFetch)
              loaded_props (constructor loaded_props))
    as (_ & _ & _ & _ & _ & _ & _ & Hquiet & _).
  split; [| split; [| split]].
  - apply Hv. right. left. reflexivity.
  - apply Hboth.
    + right. left. reflexivity.
    + left. reflexivity.
  - apply Hjob.
    + intros [H | [H | H]]; discriminate H.
    + left. reflexivity.
  - apply Hquiet.
    + intros [H | [H | H]]; discriminate H.
    + intros [H | H]; discriminate H.
Defined.

Lemma getCancelBtn_rendered_witness :
  (exists b, getCancelBtn string started (constructor loaded_props) = ButtonE b)
  /\ getCancelBtn string started (constructor job_not_found_props) = null_node.
Proof.
  split.
  - apply (proj2 (proj1 (getCancelBtn_rendered started loadingOrNotFound plan_url
                           (constructor loaded_props)))).
    exists a_job. repeat split.
  - apply (proj1 (proj2 (proj2 (getCancelBtn_rendered started loadingOrNotFound
                                  plan_url (constructor job_not_found_props))))).
    left. reflexivity.
Defined.

Lemma canceling_flag_lifetime_witness :
  (exists q id,
      @resolve unit string 0 = resolve q
      /\ nth_error (effects (after [click 0])) q = Some (doRequestCancelJob id))
  /\ canceling (state (after [click 0; resolve 0; modal_toggle false; click 0]))
     = true.
Proof.
  destruct (canceling_flag_lifetime (User := unit) started shouldFetch
              loadingOrNotFound plan_url)
    as (_ & Hflip & Hstay).
  split.
  - apply (Hflip (after [click 0]) (resolve 0) (after [click 0; resolve 0])).
    + exists loaded_props, [click 0]. reflexivity.
    + reflexivity.
    + reflexivity.
    + reflexivity.
  - apply (Hstay [modal_toggle false; click 0] (after [click 0; resolve 0])).
    + reflexivity.
    + reflexivity.
Defined.

Lemma cancel_button_click_witness :
  exists b,
    getCancelBtn string started (mount shouldFetch loaded_props) = ButtonE b
    /\ disabled b = false
    /\ dispatched (pressed b) (mount shouldFetch loaded_props)
       = [doRequestCancelJob "job-1"].
Proof.
  destruct (cancel_button_click started shouldFetch loadingOrNotFound plan_url
              (mount shouldFetch loaded_props) a_job
              eq_refl eq_refl eq_refl eq_refl)
    as (b & Hb & Hen & Hd & _).
  exists b. split; [exact Hb|]. split; [exact Hen | exact Hd].
Defined.

Lemma stepsTable_rendered_witness :
  exists plan_ job_,
    stepsTables (render started loadingOrNotFound plan_url (constructor loaded_props))
    = [StepsTable plan_ job_].
Proof.
  destruct (stepsTable_rendered started loadingOrNotFound plan_url
              (constructor loaded_props) eq_refl)
    as (plan_ & job_ & Hp & _ & Hsome & _).
  exists plan_, job_. apply Hsome.
  simpl in Hp. injection Hp as <-. exists "Step 1", []. reflexivity.
Defined.

Lemma cancel_rejection_keeps_state_witness :
  state (after [click 0; reject 0]) = state (after [click 0])
  /\ exists c2 : Component unit string, canceling (state c2) = false.
Proof.
  destruct (cancel_rejection_keeps_state (User := unit) started shouldFetch
              loadingOrNotFound plan_url)
    as (Hrej & Hagain).
  split.
  - apply (Hrej (after [click 0]) 0 (after [click 0; reject 0])). reflexivity.
  - destruct (Hagain (mount shouldFetch loaded_props) a_job
                eq_refl eq_refl eq_refl eq_refl)
      as (b & c1 & c2 & _ & _ & _ & _ & _ & Hoff & _).
    exists c2. exact Hoff.
Defined.

Lemma requestCancelJob_without_job_witness :
  dispatched requestCancelJob (constructor job_not_found_props) = [].
Proof.
  apply (requestCancelJob_without_job (constructor job_not_found_props)).
  left. reflexivity.
Defined.

Lemma update_fetches_keyed_by_new_props_witness :
  props (run_from job_not_found_props [receiveProps unfetched_props])
  = unfetched_props.
Proof.
  apply (update_fetches_keyed_by_new_props
           started shouldFetch loadingOrNotFound plan_url
           unfetched_props (mount shouldFetch job_not_found_props)
           (run_from job_not_found_props [receiveProps unfetched_props])).
  reflexivity.
Defined.

Lemma same_props_never_refetch_witness :
  effects (run_from job_not_found_props
             [receiveProps unfetched_props; receiveProps unfetched_props])
  = effects (run_from job_not_found_props [receiveProps unfetched_props]).
Proof.
  apply (same_props_never_refetch
           started shouldFetch loadingOrNotFound plan_url
           unfetched_props (mount shouldFetch job_not_found_props)
           (run_from job_not_found_props [receiveProps unfetched_props])
           (run_from job_not_found_props
              [receiveProps unfetched_props; receiveProps unfetched_props])).
  - reflexivity.
  - reflexivity.
Defined.

Lemma requestCancelJob_with_job_witness :
  dispatched requestCancelJob (constructor loaded_props)
  = [doRequestCancelJob "job-1"].
Proof.
  apply (requestCancelJob_with_job (constructor loaded_props) a_job).
  reflexivity.
Defined.

Lemma cancel_double_click_witness :
  exists c2,
    run started shouldFetch loadingOrNotFound plan_url [click 0; click 0]
        (mount shouldFetch loaded_props) = Some c2
    /\ effects c2 = [doRequestCancelJob "job-1"; doRequestCancelJob "job-1"].
Proof.
  destruct (cancel_double_click started shouldFetch loadingOrNotFound plan_url
              (mount shouldFetch loaded_props) a_job
              eq_refl eq_refl eq_refl eq_refl eq_refl)
    as (c2 & Hrun & He & _).
  exists c2. split; [exact Hrun | exact He].
Defined.

Lemma busy_button_click_inert_witness :
  exists c',
    step started shouldFetch loadingOrNotFound plan_url (click 0)
         (after [click 0; resolve 0]) = Some c'
    /\ effects c' = effects (after [click 0; resolve 0]).
Proof.
  destruct (busy_button_click_inert started shouldFetch loadingOrNotFound plan_url
              (after [click 0; resolve 0]))
    as (c' & Hstep & He & _).
  - exists a_job. repeat split.
  - reflexivity.
  - reflexivity.
  - exists c'. split; [exact Hstep | exact He].
Defined.

Lemma resolve_only_sets_canceling_witness :
  canceling (state (after [click 0; resolve 0])) = true.
Proof.
  apply (resolve_only_sets_canceling
           started shouldFetch loadingOrNotFound plan_url
           0 (after [click 0]) (after [click 0; resolve 0])).
  reflexivity.
Defined.

Lemma only_cancel_requests_awaited_witness :
  exists id, nth_error (effects (after [click 0])) 0 = Some (doRequestCancelJob id).
Proof.
  apply (only_cancel_requests_awaited
           started shouldFetch loadingOrNotFound plan_url (after [click 0]) 0).
  - exists loaded_props, [click 0]. reflexivity.
  - intros H. discriminate H.
Defined.


Lemma modalOpen_changes_only_by_modal_handlers_witness :
  (exists isOpen, @modal_toggle unit string true = modal_toggle isOpen)
  \/ @modal_toggle unit string true = invoke this_openModal
  \/ (exists n b,
         @modal_toggle unit string true = click n
         /\ nth_error (buttons (render started loadingOrNotFound plan_url
                                       (mount shouldFetch loaded_props))) n
            = Some b
         /\ disabled b = false
         /\ onClick b = Some this_openModal).
Proof.
  apply (modalOpen_changes_only_by_modal_handlers
           started shouldFetch loadingOrNotFound plan_url
           (modal_toggle true) (mount shouldFetch loaded_props)
           (after [modal_toggle true])).
  - reflexivity.
  - intros H. discriminate H.
Defined.

Lemma render_classification_witness :
  is_layout (render started loadingOrNotFound plan_url (constructor loaded_props))
  = true
  /\ render started loadingOrNotFound plan_url (constructor job_not_found_props)
     = external "Loading...".
Proof.
  split.
  - apply (proj1 (proj2 (render_classification started loadingOrNotFound plan_url
                           (constructor loaded_props)))).
    + reflexivity.
    + exists a_product, a_version, a_plan, a_job. repeat split.
  - apply (proj1 (render_classification started loadingOrNotFound plan_url
                    (constructor job_not_found_props))).
    reflexivity.
Defined.

Lemma render_depends_on_login_only_witness :
  render started loadingOrNotFound plan_url (constructor (props_of_user (Some 1)))
  = render started loadingOrNotFound plan_url (constructor (props_of_user (Some 2))).
Proof.
  apply (render_depends_on_login_only started loadingOrNotFound plan_url
           (constructor (props_of_user (Some 1)))
           (constructor (props_of_user (Some 2))));
    try reflexivity.
  split; intros H; discriminate H.
Defined.

Lemma layout_title_and_link_witness :
  exists children,
    render started loadingOrNotFound plan_url (constructor loaded_props)
    = DocumentTitle "Installation | My Plan | Product 1 | MetaDeploy" children.
Proof.
  destruct (layout_title_and_link started loadingOrNotFound plan_url
              (constructor loaded_props) eq_refl)
    as (product_ & version_ & plan_ & job_ & Ep & _ & Epl & _ & [children Hr] & _).
  simpl in Ep, Epl. injection Ep as <-. injection Epl as <-.
  exists children. exact Hr.
Defined.
